(** * Search and ranking engine of vcestudyscores.com ([src/lib/search.ts])

    A shallow embedding of the multi-strategy search library: the match
    cache, fuzzy / hybrid search, the course ranker, the subject ranker
    and the student matcher, followed by the properties the
    specification states about them.

    Conventions of the embedding.
    - A JavaScript string is a [string]; each [ascii] is one UTF-16 code
      unit in the range U+0000..U+00FF (Latin-1).  That range is closed
      under every string operation the library uses ([toLowerCase],
      [trim], [split], concatenation), and lower-casing keeps lengths
      there.  Where that matters the course search is embedded a second
      time, in [Wide], on an alphabet with U+0130, whose lower case is
      two code units long.
    - A JavaScript number that carries a measurement (rank, ATAR, fuzzy
      score, weight, threshold) is a binary64 [float]; a number that is a
      count, a year, a limit or a millisecond timestamp is a [Z].
    - [Fuse] (the fuse.js index) is an external library: an index records
      the collection and the configuration it was built from, and its
      [search] method is a parameter of the development.
    - [Date.now()] is an explicit argument of every function that reads
      the clock; the process-wide [searchCache] is threaded explicitly. *)

From Stdlib Require Import List ZArith Bool Ascii String Floats Lia.
From Stdlib Require Import Permutation Sorted.
Import ListNotations.

Set Implicit Arguments.
Set Warnings "-inexact-float".

Local Open Scope string_scope.
Local Open Scope Z_scope.

(* ====================================================================== *)
(** * The JavaScript runtime primitives the library relies on              *)
(* ====================================================================== *)

Module JS.

(** ** Strings *)

Definition code (c : ascii) : nat := nat_of_ascii c.

(** [String.prototype.toLowerCase] on Latin-1: A-Z, and the accented
    capitals U+00C0..U+00DE except the multiplication sign U+00D7. *)
Definition isUpper (c : ascii) : bool :=
  let n := code c in
  ((65 <=? n) && (n <=? 90) ||
   (192 <=? n) && (n <=? 214) ||
   (216 <=? n) && (n <=? 222))%nat.

Definition lowerChar (c : ascii) : ascii :=
  if isUpper c then ascii_of_nat (code c + 32) else c.

Fixpoint toLowerCase (s : string) : string :=
  match s with
  | EmptyString => EmptyString
  | String c s' => String (lowerChar c) (toLowerCase s')
  end.

(** White space and line terminators of Latin-1: TAB, LF, VT, FF, CR,
    SPACE and NO-BREAK SPACE.  This is the class [\s] of a regular
    expression and the set [trim] strips. *)
Definition isWhiteSpace (c : ascii) : bool :=
  let n := code c in
  ((9 <=? n) && (n <=? 13) || (n =? 32) || (n =? 160))%nat.

Fixpoint trimStart (s : string) : string :=
  match s with
  | EmptyString => EmptyString
  | String c s' => if isWhiteSpace c then trimStart s' else s
  end.

(** [allWhite s]: [s] consists of white space only. *)
Fixpoint allWhite (s : string) : bool :=
  match s with
  | EmptyString => true
  | String c s' => isWhiteSpace c && allWhite s'
  end.

Fixpoint trimEnd (s : string) : string :=
  match s with
  | EmptyString => EmptyString
  | String c s' => if allWhite s then EmptyString else String c (trimEnd s')
  end.

Definition trim (s : string) : string := trimEnd (trimStart s).

(** [s.length] *)
Definition length (s : string) : Z := Z.of_nat (String.length s).

(** [s.startsWith(p)] *)
Fixpoint startsWith (s p : string) : bool :=
  match p, s with
  | EmptyString, _ => true
  | String _ _, EmptyString => false
  | String b p', String a s' => Ascii.eqb a b && startsWith s' p'
  end.

(** [s.includes(sub)] *)
Fixpoint includes (s sub : string) : bool :=
  startsWith s sub ||
  match s with
  | EmptyString => false
  | String _ s' => includes s' sub
  end.

(** [s.split(re)] for a regular expression [re] that matches the maximal
    non-empty runs of the characters of class [sep] ([/\s+/], [/[\s,]+/]).
    [cur] holds the piece being read, reversed; [inSep] tells whether the
    previous character belonged to a separator run. *)
Fixpoint revString (acc s : string) : string :=
  match s with
  | EmptyString => acc
  | String c s' => revString (String c acc) s'
  end.

Fixpoint splitRuns (sep : ascii -> bool) (cur : string) (inSep : bool)
    (s : string) : list string :=
  match s with
  | EmptyString => [revString EmptyString cur]
  | String c s' =>
      if sep c then
        if inSep then splitRuns sep cur true s'
        else revString EmptyString cur :: splitRuns sep EmptyString true s'
      else splitRuns sep (String c cur) false s'
  end.

(** [s.split(/\s+/)] *)
Definition splitWhite (s : string) : list string :=
  splitRuns isWhiteSpace EmptyString false s.

(** [s.split(/[\s,]+/)] *)
Definition splitWhiteComma (s : string) : list string :=
  splitRuns (fun c => isWhiteSpace c || Ascii.eqb c ","%char) EmptyString false s.

(** ** Numbers *)

(** [parseFloat]: skip leading white space, read the longest prefix that
    is a decimal literal (sign, [Infinity], digits, fraction, exponent)
    and round its value to the nearest binary64; [NaN] when there is no
    such prefix. *)
Definition isDigit (c : ascii) : bool :=
  let n := code c in ((48 <=? n) && (n <=? 57))%nat.

Definition digitVal (c : ascii) : Z := Z.of_nat (code c) - 48.

(** Longest prefix of digits: its value, its length, and the rest. *)
Fixpoint spanDigits (acc : Z) (len : Z) (s : string) : Z * Z * string :=
  match s with
  | String c s' =>
      if isDigit c then spanDigits (10 * acc + digitVal c) (len + 1) s'
      else (acc, len, s)
  | EmptyString => (acc, len, s)
  end.

(** The binary64 nearest to [m * 10 ^ e] (ties to even), [0 < m]. *)
Definition roundDecimal (m e : Z) : float :=
  if 0 <=? e then
    SF2Prim (binary_normalize prec emax (m * 10 ^ e) 0 false)
  else
    let d := 10 ^ (- e) in
    let s := Z.log2 d + 70 in
    let q := (m * 2 ^ s) / d in
    let sticky := if (m * 2 ^ s) mod d =? 0 then 0 else 1 in
    SF2Prim (binary_normalize prec emax (2 * q + sticky) (- s - 1) false).

Definition decimalValue (m e : Z) : float :=
  if m =? 0 then zero else roundDecimal m e.

(** The optional exponent part [e[+-]digits]; [0] when it is absent or
    malformed (then it is not part of the literal). *)
Definition exponentPart (s : string) : Z :=
  match s with
  | String c s' =>
      if Ascii.eqb c "e"%char || Ascii.eqb c "E"%char then
        match s' with
        | String sg s'' =>
            if Ascii.eqb sg "-"%char then
              let '(v, n, _) := spanDigits 0 0 s'' in if n =? 0 then 0 else - v
            else if Ascii.eqb sg "+"%char then
              let '(v, n, _) := spanDigits 0 0 s'' in if n =? 0 then 0 else v
            else
              let '(v, n, _) := spanDigits 0 0 s' in if n =? 0 then 0 else v
        | EmptyString => 0
        end
      else 0
  | EmptyString => 0
  end.

Definition unsignedLiteral (s : string) : float :=
  if startsWith s "Infinity" then infinity
  else
    let '(ip, ilen, r1) := spanDigits 0 0 s in
    (* [m]: the digits of the integer and the fraction part together *)
    let '(m, flen, r2) :=
      match r1 with
      | String c r1' => if Ascii.eqb c "."%char then spanDigits ip 0 r1' else (ip, 0, r1)
      | EmptyString => (ip, 0, r1)
      end in
    if ilen + flen =? 0 then nan
    else decimalValue m (exponentPart r2 - flen).

Definition parseFloat (s : string) : float :=
  match trimStart s with
  | String c s' =>
      if Ascii.eqb c "-"%char then (- unsignedLiteral s')%float
      else if Ascii.eqb c "+"%char then unsignedLiteral s'
      else unsignedLiteral (String c s')
  | EmptyString => nan
  end.

Definition isNaN (x : float) : bool := is_nan x.

(** ** Arrays *)

(** [Array.prototype.sort(cmp)].  The sort is stable; [after a b] tells
    that the comparator's result on [(a, b)] is positive, that is, [a]
    must come after [b].  For a consistent comparator every conforming
    engine returns the list computed here. *)
Section Sort.
Variable A : Type.
Variable after : A -> A -> bool.

Fixpoint insert (x : A) (l : list A) : list A :=
  match l with
  | [] => [x]
  | y :: l' => if after x y then y :: insert x l' else x :: l
  end.

Fixpoint sort (l : list A) : list A :=
  match l with
  | [] => []
  | x :: l' => insert x (sort l')
  end.
End Sort.

(** The comparator [(a, b) => key(b) - key(a)] as a sign test, and the
    order it sorts into: descending by an integer key. *)
Definition descending (A : Type) (key : A -> Z) (a b : A) : bool :=
  0 <? key b - key a.

Definition keyGe (A : Type) (key : A -> Z) (a b : A) : Prop := key b <= key a.

(** The sign test the sort applies to a numeric comparator result: a
    positive number; [NaN] counts as [+0]. *)
Definition positive (v : float) : bool := (0 <? v)%float.

(** [arr.slice(0, end)] *)
Definition slice0 (A : Type) (l : list A) (end_ : Z) : list A :=
  let len := Z.of_nat (List.length l) in
  let k := if end_ <? 0 then Z.max (len + end_) 0 else Z.min end_ len in
  firstn (Z.to_nat k) l.

End JS.

(* ====================================================================== *)
(** * Search configuration, the fuse.js index and the match cache          *)
(* ====================================================================== *)

(** An element of [SearchOptions.keys]: [string | { name; weight }]. *)
Inductive SearchKey :=
| Key (name : string)
| WeightedKey (name : string) (weight : float).

Definition SearchKey_eqb (a b : SearchKey) : bool :=
  match a, b with
  | Key x, Key y => String.eqb x y
  | WeightedKey x w, WeightedKey y v => String.eqb x y && Leibniz.eqb w v
  | _, _ => false
  end.

(** [interface SearchOptions]; an absent optional field is [None].  A
    field that is present holds a value: a property set to [undefined]
    explicitly is not represented. *)
Module SearchOptions.
Record t := {
  keys : list SearchKey;
  threshold : option float;
  minMatchCharLength : option Z;
  shouldSort : option bool;
  includeScore : option bool;
  ignoreLocation : option bool;
  distance : option Z
}.
End SearchOptions.

Definition DEFAULT_SEARCH_OPTIONS : SearchOptions.t :=
  {| SearchOptions.keys := [];
     SearchOptions.threshold := Some 0.3%float;
     SearchOptions.minMatchCharLength := Some 1;
     SearchOptions.shouldSort := Some true;
     SearchOptions.includeScore := Some true;
     SearchOptions.ignoreLocation := Some true;
     SearchOptions.distance := Some 100 |}.

(** The object spread [{ ...defaults, ...options }]: a field present in
    [options] wins. *)
Definition orElse (A : Type) (o d : option A) : option A :=
  match o with Some _ => o | None => d end.

Definition mergeOptions (defaults options : SearchOptions.t) : SearchOptions.t :=
  {| SearchOptions.keys := SearchOptions.keys options;
     SearchOptions.threshold :=
       orElse (SearchOptions.threshold options) (SearchOptions.threshold defaults);
     SearchOptions.minMatchCharLength :=
       orElse (SearchOptions.minMatchCharLength options)
              (SearchOptions.minMatchCharLength defaults);
     SearchOptions.shouldSort :=
       orElse (SearchOptions.shouldSort options) (SearchOptions.shouldSort defaults);
     SearchOptions.includeScore :=
       orElse (SearchOptions.includeScore options) (SearchOptions.includeScore defaults);
     SearchOptions.ignoreLocation :=
       orElse (SearchOptions.ignoreLocation options) (SearchOptions.ignoreLocation defaults);
     SearchOptions.distance :=
       orElse (SearchOptions.distance options) (SearchOptions.distance defaults) |}.

Section OptionEq.
Variable A : Type.
Variable eqb : A -> A -> bool.

Definition option_eqb (x y : option A) : bool :=
  match x, y with
  | Some a, Some b => eqb a b
  | None, None => true
  | _, _ => false
  end.

Fixpoint list_eqb (x y : list A) : bool :=
  match x, y with
  | [], [] => true
  | a :: x', b :: y' => eqb a b && list_eqb x' y'
  | _, _ => false
  end.
End OptionEq.

Definition SearchOptions_eqb (a b : SearchOptions.t) : bool :=
  list_eqb SearchKey_eqb (SearchOptions.keys a) (SearchOptions.keys b) &&
  option_eqb Leibniz.eqb (SearchOptions.threshold a) (SearchOptions.threshold b) &&
  option_eqb Z.eqb (SearchOptions.minMatchCharLength a) (SearchOptions.minMatchCharLength b) &&
  option_eqb Bool.eqb (SearchOptions.shouldSort a) (SearchOptions.shouldSort b) &&
  option_eqb Bool.eqb (SearchOptions.includeScore a) (SearchOptions.includeScore b) &&
  option_eqb Bool.eqb (SearchOptions.ignoreLocation a) (SearchOptions.ignoreLocation b) &&
  option_eqb Z.eqb (SearchOptions.distance a) (SearchOptions.distance b).

(** The fuse.js index.  [new Fuse(docs, options)] is the record itself;
    what [search] returns for it is decided by the library. *)
Module Fuse.
Record t (T : Type) := New { docs : list T; options : SearchOptions.t }.

(** [FuseResult<T>] *)
Record Result (T : Type) := { item : T; refIndex : Z; score : option float }.
End Fuse.

(** [interface CachedSearch<T>] *)
Record CachedSearch (T : Type) := { fuse : Fuse.t T; timestamp : Z }.

(** The key [JSON.stringify({ dataLength, options })], kept structured.
    The string starts with the length of the data, so two keys with
    different lengths differ.  For the configuration the embedding reads
    an options object as the literals of this library are written: its
    properties in the order of the interface, none of them set to
    [undefined], its numbers finite and not [-0].  On such objects two
    keys are the same string exactly when the configurations agree field
    by field. *)
Definition CacheKey : Type := Z * SearchOptions.t.

Definition CacheKey_eqb (a b : CacheKey) : bool :=
  Z.eqb (fst a) (fst b) && SearchOptions_eqb (snd a) (snd b).

(** [searchCache : Map<string, CachedSearch<any>>], in insertion order. *)
Definition SearchCache (T : Type) : Type := list (CacheKey * CachedSearch T).

Definition CACHE_TTL : Z := 5 * 60 * 1000.

Section Cache.
Variable T : Type.

Definition getCacheKey (data : list T) (options : SearchOptions.t) : CacheKey :=
  (Z.of_nat (List.length data), options).

(** [searchCache.get(key)] *)
Fixpoint cacheGet (cache : SearchCache T) (key : CacheKey) : option (CachedSearch T) :=
  match cache with
  | [] => None
  | (k, v) :: rest => if CacheKey_eqb k key then Some v else cacheGet rest key
  end.

(** [searchCache.set(key, value)]: an existing key keeps its place. *)
Fixpoint cacheSet (cache : SearchCache T) (key : CacheKey) (value : CachedSearch T)
    : SearchCache T :=
  match cache with
  | [] => [(key, value)]
  | (k, v) :: rest =>
      if CacheKey_eqb k key then (k, value) :: rest
      else (k, v) :: cacheSet rest key value
  end.

(** [clearExpiredCache], with [now] the value [Date.now()] returned:
    the loop deletes the entries for which the test holds. *)
Definition clearExpiredCache (now : Z) (cache : SearchCache T) : SearchCache T :=
  filter (fun e => negb (CACHE_TTL <? now - timestamp (snd e))) cache.

(** [clearSearchCache] *)
Definition clearSearchCache (cache : SearchCache T) : SearchCache T := [].

(** [createFuzzySearch]; [now] is read by the sweep and [now'] when the
    new entry is stored. *)
Definition createFuzzySearch (now now' : Z) (cache : SearchCache T)
    (data : list T) (options : SearchOptions.t) : Fuse.t T * SearchCache T :=
  let cache := clearExpiredCache now cache in
  let cacheKey := getCacheKey data options in
  match cacheGet cache cacheKey with
  | Some cached => (fuse cached, cache)
  | None =>
      let fuse := Fuse.New data (mergeOptions DEFAULT_SEARCH_OPTIONS options) in
      (fuse, cacheSet cache cacheKey {| fuse := fuse; timestamp := now' |})
  end.
End Cache.

(* ====================================================================== *)
(** * Records of the course search                                         *)
(* ====================================================================== *)

Inductive Category := safe | target | reach | unknown.

Definition Category_eqb (a b : Category) : bool :=
  match a, b with
  | safe, safe | target, target | reach, reach | unknown, unknown => true
  | _, _ => false
  end.

(** [interface Course] *)
Module Course.
Record t := {
  code : string;
  name : string;
  rank : string;
  institution : string;
  campus : string;
  category : option Category;
  rankNum : option float;
  searchText : option string;
  prerequisites : option (list string);
  duration : option string;
  faculty : option string;
  vtacUrl : option string;
  description : option string;
  fullTime : option bool;
  partTime : option bool
}.

(** A course with the five mandatory fields only. *)
Definition make (code name rank institution campus : string) : t :=
  {| code := code; name := name; rank := rank; institution := institution;
     campus := campus; category := None; rankNum := None;
     searchText := None; prerequisites := None; duration := None;
     faculty := None; vtacUrl := None; description := None;
     fullTime := None; partTime := None |}.
End Course.

(** [interface EnrichedCourse extends Course]: the spread [...course]
    keeps every field of the record, and the three derived fields replace
    its optional ones. *)
Module EnrichedCourse.
Record t := {
  course : Course.t;
  category : Category;
  rankNum : float;
  searchText : string
}.
End EnrichedCourse.

(** [interface Subject]; [scaling] lists the entries of the object. *)
Module Subject.
Record t := {
  code : string;
  name : string;
  mean : option float;
  stdev : option float;
  scaling : option (list (string * float))
}.

Definition make (code name : string) : t :=
  {| code := code; name := name; mean := None; stdev := None; scaling := None |}.
End Subject.

(** The objects [searchSubjects] works on and returns: [{ ...s, searchText }].
    The early return for a blank query hands back the subjects themselves,
    which carry no [searchText]. *)
Module EnrichedSubject.
Record t := {
  subject : Subject.t;
  searchText : option string
}.

Definition plain (s : Subject.t) : t := {| subject := s; searchText := None |}.
End EnrichedSubject.

(** [interface Student] *)
Record SubjectScore := { ss_subject : string; ss_score : Z }.

Module Student.
Record t := {
  name : string;
  school : string;
  subjects : list SubjectScore;
  year : option Z
}.
End Student.

(* ====================================================================== *)
(** * Fuzzy and hybrid search                                              *)
(* ====================================================================== *)

(** A property value read through [(item as any)[key]]. *)
Inductive JsValue :=
| JsUndefined
| JsString (s : string)
| JsNumber (x : float)
| JsOther.

(** The objects [fuzzySearchWithScores] returns: [{ item, score }]. *)
Module ScoredItem.
Record t (T : Type) := { item : T; score : float }.
End ScoredItem.

Section Search.
(** [fuse.search(query)] of the fuse.js library. *)
Variable fuseSearch : forall T : Type, Fuse.t T -> string -> list (Fuse.Result T).

Section Generic.
Variable T : Type.

(** [options.minMatchCharLength || 1] *)
Definition minLength (options : SearchOptions.t) : Z :=
  match SearchOptions.minMatchCharLength options with
  | Some n => if n =? 0 then 1 else n
  | None => 1
  end.

Definition fuzzySearch (now now' : Z) (cache : SearchCache T)
    (data : list T) (query : string) (options : SearchOptions.t)
    : list T * SearchCache T :=
  if String.eqb query "" || (JS.length (JS.trim query) =? 0) then (data, cache)
  else
    let trimmedQuery := JS.trim query in
    if JS.length trimmedQuery <? minLength options then ([], cache)
    else
      let '(fuse, cache) := createFuzzySearch now now' cache data options in
      let results := fuseSearch fuse trimmedQuery in
      (map (@Fuse.item T) results, cache).

(** [fuzzySearchWithScores]; [r.score ?? 0] replaces an absent score. *)
Definition fuzzySearchWithScores (now now' : Z) (cache : SearchCache T)
    (data : list T) (query : string) (options : SearchOptions.t)
    : list (ScoredItem.t T) * SearchCache T :=
  if String.eqb query "" || (JS.length (JS.trim query) =? 0)
  then (map (fun item => {| ScoredItem.item := item; ScoredItem.score := 1%float |}) data,
        cache)
  else
    let trimmedQuery := JS.trim query in
    if JS.length trimmedQuery <? minLength options then ([], cache)
    else
      let '(fuse, cache) := createFuzzySearch now now' cache data options in
      (map (fun r => {| ScoredItem.item := Fuse.item r;
                        ScoredItem.score :=
                          match Fuse.score r with Some x => x | None => zero end |})
           (fuseSearch fuse trimmedQuery),
       cache).

(** [item[key]] and the identity of items ([Array.prototype.includes]
    compares objects by reference). *)
Variable getField : T -> string -> JsValue.
Variable sameItem : T -> T -> bool.

(** The inner loop over [exactMatchKeys]: [true] when it leaves through
    one of the two [break]s. *)
Fixpoint exactKeyLoop (trimmedQuery : string) (item : T) (exactMatchKeys : list string)
    : bool :=
  match exactMatchKeys with
  | [] => false
  | key :: rest =>
      match getField item key with
      | JsString value =>
          if negb (String.eqb value "") then
            if String.eqb (JS.toLowerCase value) trimmedQuery then true
            else if JS.startsWith (JS.toLowerCase value) trimmedQuery then true
            else exactKeyLoop trimmedQuery item rest
          else exactKeyLoop trimmedQuery item rest
      | _ => exactKeyLoop trimmedQuery item rest
      end
  end.

(** The outer loop over [data]: the pair [(exactMatches, fuzzyMatches)],
    each array extended by [push]. *)
Fixpoint partitionLoop (trimmedQuery : string) (exactMatchKeys : list string)
    (data : list T) (exactMatches fuzzyMatches : list T) : list T * list T :=
  match data with
  | [] => (exactMatches, fuzzyMatches)
  | item :: rest =>
      if exactKeyLoop trimmedQuery item exactMatchKeys
      then partitionLoop trimmedQuery exactMatchKeys rest (exactMatches ++ [item]) fuzzyMatches
      else partitionLoop trimmedQuery exactMatchKeys rest exactMatches (fuzzyMatches ++ [item])
  end.

(** [arr.includes(x)] *)
Definition arrayIncludes (arr : list T) (x : T) : bool := existsb (sameItem x) arr.

Definition hybridSearch (now now' : Z) (cache : SearchCache T)
    (data : list T) (query : string) (options : SearchOptions.t)
    (exactMatchKeys : list string) : list T * SearchCache T :=
  if String.eqb query "" || (JS.length (JS.trim query) =? 0) then (data, cache)
  else
    let trimmedQuery := JS.toLowerCase (JS.trim query) in
    let '(exactMatches, fuzzyMatches) :=
      partitionLoop trimmedQuery exactMatchKeys data [] [] in
    if Z.of_nat (List.length exactMatches) =? 0 then
      fuzzySearch now now' cache data query options
    else
      let '(found, cache) := fuzzySearch now now' cache fuzzyMatches query options in
      let fuzzyResults := filter (fun item => negb (arrayIncludes exactMatches item)) found in
      ((exactMatches ++ fuzzyResults)%list, cache).
End Generic.

(* ==================================================================== *)
(** * Course search                                                     *)
(* ==================================================================== *)

(** [enrichCourses], the body of the [map] callback. *)
Definition enrichCourse (atar : float) (c : Course.t) : EnrichedCourse.t :=
  let '(category, rankNum) :=
    if String.eqb (Course.rank c) "N/P" || String.eqb (Course.rank c) "L/N"
       || String.eqb (Course.rank c) "RC"
    then (unknown, zero)
    else
      let rankNum := JS.parseFloat (Course.rank c) in
      if negb (JS.isNaN rankNum) then
        if (rankNum <? atar - 5)%float then (safe, rankNum)
        else if (atar + 5 <? rankNum)%float then (reach, rankNum)
        else (target, rankNum)
      else (unknown, rankNum) in
  {| EnrichedCourse.course := c;
     EnrichedCourse.category := category;
     EnrichedCourse.rankNum := rankNum;
     EnrichedCourse.searchText :=
       Course.institution c ++ " " ++ Course.name c ++ " " ++ Course.code c |}.

Definition enrichCourses (courses : list Course.t) (atar : float)
    : list EnrichedCourse.t :=
  map (enrichCourse atar) courses.

(** The words of a search term: [split(/\s+/).filter(w => w.length >= 2)]. *)
Definition qualifyingWords (s : string) : list string :=
  filter (fun w => 2 <=? JS.length w) (JS.splitWhite s).

(** The body of the scoring loop of [wordBasedSearch] for one word. *)
Definition wordScore (c : EnrichedCourse.t) (word : string) : Z :=
  let institution := JS.toLowerCase (Course.institution (EnrichedCourse.course c)) in
  let name := JS.toLowerCase (Course.name (EnrichedCourse.course c)) in
  if String.eqb institution word then 100
  else if String.eqb name word then 90
  else if JS.startsWith institution word then 50
  else if JS.startsWith name word then 40
  else if JS.includes institution (" " ++ word) then 20
  else if JS.includes name (" " ++ word) then 15
  else 1.

(** [for (const word of words) score += ...], from [score = 0]. *)
Definition courseScore (words : list string) (c : EnrichedCourse.t) : Z :=
  fold_left (fun score word => score + wordScore c word) words 0.

(** The filter callback: [words.every(word => text.includes(word))]. *)
Definition containsAllWords (words : list string) (c : EnrichedCourse.t) : bool :=
  let text := JS.toLowerCase (EnrichedCourse.searchText c) in
  forallb (fun word => JS.includes text word) words.

Definition wordBasedSearch (courses : list EnrichedCourse.t) (searchTerm : string)
    : list EnrichedCourse.t :=
  let words := qualifyingWords (JS.toLowerCase searchTerm) in
  if Z.of_nat (List.length words) =? 0 then courses
  else
    let matches := filter (containsAllWords words) courses in
    if Z.of_nat (List.length matches) =? 0 then []
    else
      let scored := map (fun c => (c, courseScore words c)) matches in
      let scored := JS.sort (fun a b => 0 <? snd b - snd a) scored in
      map fst scored.

(** [interface CourseSearchOptions] *)
Inductive CategoryFilter := all | only (c : Category).

Record CourseSearchOptions := {
  searchTerm : option string;
  categoryFilter : option CategoryFilter;
  atar : option float;
  limit : option Z
}.

(** The fuzzy configuration of [searchCourses]. *)
Definition courseFuzzyOptions : SearchOptions.t :=
  {| SearchOptions.keys :=
       [WeightedKey "searchText" 2; WeightedKey "name" 1.5;
        WeightedKey "institution" 1.5; WeightedKey "code" 1];
     SearchOptions.threshold := Some 0.4%float;
     SearchOptions.minMatchCharLength := Some 2;
     SearchOptions.shouldSort := None;
     SearchOptions.includeScore := None;
     SearchOptions.ignoreLocation := None;
     SearchOptions.distance := None |}.

(** The comparator of the final sort, as the sign test of [JS.sort]. *)
Definition rankAfter (a b : EnrichedCourse.t) : bool :=
  let ua := Category_eqb (EnrichedCourse.category a) unknown in
  let ub := Category_eqb (EnrichedCourse.category b) unknown in
  if ua && negb ub then true
  else if negb ua && ub then false
  else JS.positive (EnrichedCourse.rankNum b - EnrichedCourse.rankNum a)%float.

(** The search step of [searchCourses] for a term that is not blank:
    the strategy selection between the word-based and the fuzzy result. *)
Definition courseSearchStep (now now' : Z) (cache : SearchCache EnrichedCourse.t)
    (enriched : list EnrichedCourse.t) (searchTerm : string)
    : list EnrichedCourse.t * SearchCache EnrichedCourse.t :=
  let trimmed := JS.trim searchTerm in
  let wordMatches := wordBasedSearch enriched trimmed in
  let isMultiWord := 1 <? Z.of_nat (List.length (qualifyingWords trimmed)) in
  if (0 <? Z.of_nat (List.length wordMatches))
     && (isMultiWord || (3 <=? Z.of_nat (List.length wordMatches)))
  then (wordMatches, cache)
  else
    let '(fuse, cache) := createFuzzySearch now now' cache enriched courseFuzzyOptions in
    let searchResults := fuseSearch fuse trimmed in
    (map (@Fuse.item _) searchResults, cache).

(** [searchTerm && searchTerm.trim()] *)
Definition hasSearch (searchTerm : option string) : option string :=
  match searchTerm with
  | Some s => if negb (String.eqb s "") && negb (String.eqb (JS.trim s) "")
              then Some s else None
  | None => None
  end.

(** [!searchTerm] *)
Definition noSearchTerm (searchTerm : option string) : bool :=
  match searchTerm with
  | Some s => String.eqb s ""
  | None => true
  end.

Definition searchCourses (now now' : Z) (cache : SearchCache EnrichedCourse.t)
    (courses : list Course.t) (options : CourseSearchOptions)
    : list EnrichedCourse.t * SearchCache EnrichedCourse.t :=
  let atar := match atar options with Some a => a | None => zero end in
  let enriched := enrichCourses courses atar in
  let '(results, cache) :=
    match hasSearch (searchTerm options) with
    | Some s => courseSearchStep now now' cache enriched s
    | None => (enriched, cache)
    end in
  let results :=
    match categoryFilter options with
    | Some (only category) =>
        filter (fun c => Category_eqb (EnrichedCourse.category c) category) results
    | _ => results
    end in
  let results :=
    if noSearchTerm (searchTerm options) then JS.sort rankAfter results else results in
  let results :=
    match limit options with
    | Some limit => if (negb (limit =? 0)) && (0 <? limit) then JS.slice0 results limit
                    else results
    | None => results
    end in
  (results, cache).

(* ==================================================================== *)
(** * Subject search                                                    *)
(* ==================================================================== *)

(** [normaliseSubjectQuery]; [aliases] lists [Object.entries(aliases)]. *)
Definition Aliases : Type := list (string * list string).

Definition normaliseSubjectQuery (query : string) (aliases : option Aliases)
    : string * list string :=
  let normalisedQuery := JS.toLowerCase (JS.trim query) in
  let aliasTargets :=
    match aliases with
    | Some entries =>
        fold_left
          (fun (aliasTargets : list string) (entry : string * list string) =>
             let '(alias, targets) := entry in
             if String.eqb normalisedQuery alias
                || JS.startsWith normalisedQuery (alias ++ " ")
             then (aliasTargets ++ targets)%list else aliasTargets)
          entries []
    | None => []
    end in
  (normalisedQuery, aliasTargets).

(** [interface SubjectSearchOptions] *)
Record SubjectSearchOptions := {
  query : string;
  aliases : option Aliases;
  subjectLimit : option Z
}.

(** The callback that computes [priority] for one enriched subject. *)
Definition subjectPriority (normalisedQuery : string) (aliasTargets : list string)
    (subject : EnrichedSubject.t) : Z :=
  let priority := 0 in
  let nameLower := JS.toLowerCase (Subject.name (EnrichedSubject.subject subject)) in
  let codeLower := JS.toLowerCase (Subject.code (EnrichedSubject.subject subject)) in
  let priority :=
    fold_left
      (fun priority target =>
         if String.eqb nameLower (JS.toLowerCase target) then priority + 100 else priority)
      aliasTargets priority in
  let priority :=
    fold_left
      (fun priority target =>
         if JS.startsWith nameLower (JS.toLowerCase target) then priority + 50 else priority)
      aliasTargets priority in
  let priority := if String.eqb nameLower normalisedQuery then priority + 80 else priority in
  let priority := if JS.startsWith nameLower normalisedQuery then priority + 40 else priority in
  let priority := if String.eqb codeLower normalisedQuery then priority + 70 else priority in
  let priority := if JS.startsWith codeLower normalisedQuery then priority + 30 else priority in
  priority.

(** The fuzzy configuration of [searchSubjects]. *)
Definition subjectFuzzyOptions : SearchOptions.t :=
  {| SearchOptions.keys := [WeightedKey "name" 2; WeightedKey "code" 1];
     SearchOptions.threshold := Some 0.3%float;
     SearchOptions.minMatchCharLength := Some 2;
     SearchOptions.shouldSort := None;
     SearchOptions.includeScore := None;
     SearchOptions.ignoreLocation := None;
     SearchOptions.distance := None |}.

(** [r.score || 1] *)
Definition scoreOr1 (score : option float) : float :=
  match score with
  | Some x => if (x =? 0)%float || JS.isNaN x then 1%float else x
  | None => 1%float
  end.

Definition enrichSubject (s : Subject.t) : EnrichedSubject.t :=
  {| EnrichedSubject.subject := s;
     EnrichedSubject.searchText := Some (Subject.name s ++ " " ++ Subject.code s) |}.

Definition searchSubjects (now now' : Z) (cache : SearchCache EnrichedSubject.t)
    (subjects : list Subject.t) (options : SubjectSearchOptions)
    : list EnrichedSubject.t * SearchCache EnrichedSubject.t :=
  let limit := match subjectLimit options with Some l => l | None => 50 end in
  if String.eqb (query options) "" || (JS.length (JS.trim (query options)) =? 0)
  then (JS.slice0 (map EnrichedSubject.plain subjects) limit, cache)
  else
    let '(normalisedQuery, aliasTargets) :=
      normaliseSubjectQuery (query options) (aliases options) in
    let enriched := map enrichSubject subjects in
    let scored :=
      map (fun subject => (subject, subjectPriority normalisedQuery aliasTargets subject))
          enriched in
    let highPriority := filter (fun s => 0 <? snd s) scored in
    let lowPriority := filter (fun s => snd s =? 0) scored in
    let highPriority := JS.sort (fun a b => 0 <? snd b - snd a) highPriority in
    let '(fuzzyResults, cache) :=
      if 0 <? Z.of_nat (List.length lowPriority) then
        let '(fuse, cache) :=
          createFuzzySearch now now' cache (map fst lowPriority) subjectFuzzyOptions in
        let found :=
          map (fun r => (Fuse.item r, Fuse.score r)) (fuseSearch fuse normalisedQuery) in
        let found :=
          JS.sort (fun a b => JS.positive (scoreOr1 (snd a) - scoreOr1 (snd b))%float)
                  found in
        (map fst found, cache)
      else ([], cache) in
    let results := (map fst highPriority ++ fuzzyResults)%list in
    (JS.slice0 results limit, cache).

End Search.

(* ====================================================================== *)
(** * Student search                                                       *)
(* ====================================================================== *)

Section Students.
(** [a.localeCompare(b)]: negative, zero or positive, as the host's
    collation decides. *)
Variable localeCompare : string -> string -> Z.

Definition subjectIncludes (q : string) (s : SubjectScore) : bool :=
  JS.includes (JS.toLowerCase (ss_subject s)) q.

Definition studentMatchesQuery (student : Student.t) (query : string) : bool :=
  let nameLower := JS.toLowerCase (Student.name student) in
  let schoolLower := JS.toLowerCase (Student.school student) in
  let queryLower := JS.toLowerCase query in
  if JS.includes nameLower queryLower || JS.includes schoolLower queryLower then true
  else if existsb (subjectIncludes queryLower) (Student.subjects student) then true
  else
    let queryWords := filter (fun w => 0 <? JS.length w) (JS.splitWhite queryLower) in
    if 1 <? Z.of_nat (List.length queryWords) then
      let nameWords := filter (fun w => 0 <? JS.length w) (JS.splitWhiteComma nameLower) in
      let schoolWords :=
        filter (fun w => 0 <? JS.length w) (JS.splitWhiteComma schoolLower) in
      let allWordsMatch :=
        forallb
          (fun qw =>
             existsb (fun nw => JS.includes nw qw) nameWords
             || existsb (fun sw => JS.includes sw qw) schoolWords
             || existsb (subjectIncludes qw) (Student.subjects student))
          queryWords in
      if allWordsMatch then true else false
    else false.

(** [year || 0] *)
Definition yearOr0 (year : option Z) : Z :=
  match year with Some y => y | None => 0 end.

(** The comparator of [sortStudents]. *)
Definition compareStudents (a b : Student.t) : Z :=
  if negb (option_eqb Z.eqb (Student.year b) (Student.year a)) then
    yearOr0 (Student.year b) - yearOr0 (Student.year a)
  else localeCompare (Student.name a) (Student.name b).

Definition sortStudents (students : list Student.t) : list Student.t :=
  JS.sort (fun a b => 0 <? compareStudents a b) students.
End Students.

(* ====================================================================== *)
(** * Debounce utility                                                     *)
(* ====================================================================== *)

(** [debounce(func, wait)].  The closure keeps [timeoutId]; the host keeps
    the timers that are set and not yet fired or cleared.  A timer carries
    its handle (a positive number, hence truthy), the time from which it
    may fire and the arguments its callback has captured.  [invoked] is
    the record of the calls [func(...args)] made so far, with their times.

    [func] is the caller's: while it runs it may call the debounced
    function itself, any number of times, and it may return or throw.
    That is all it can do to the closure, whose [timeoutId] is private. *)
Module Debounce.
Section Debounce.
Variable Args : Type.
Variable wait : Z.

Record Timer := { handle : Z; due : Z; captured : Args }.

Record State := {
  timeoutId : option Z;
  timers : list Timer;
  nextHandle : Z;
  invoked : list (Z * Args)
}.

(** What one run of [func] does: the arguments of the calls it makes to
    the debounced function, in order, and whether it throws in the end. *)
Record FuncRun := { reentrant : list Args; throws : bool }.

(** The state [debounce] returns the closure in: [timeoutId = null], no
    timer set; handles start at 1. *)
Definition initial : State :=
  {| timeoutId := None; timers := []; nextHandle := 1; invoked := [] |}.

(** [clearTimeout(id)]: a timer that is not set any more is left alone. *)
Definition clearTimeout (id : Z) (ts : list Timer) : list Timer :=
  filter (fun t => negb (handle t =? id)) ts.

(** [debounced(...args)] called at time [now]:
    [if (timeoutId) clearTimeout(timeoutId); timeoutId = setTimeout(cb, wait)].
    A delay below zero counts as zero. *)
Definition debounced (now : Z) (args : Args) (st : State) : State :=
  let ts :=
    match timeoutId st with
    | Some id => clearTimeout id (timers st)
    | None => timers st
    end in
  let id := nextHandle st in
  {| timeoutId := Some id;
     timers := ts ++ [{| handle := id; due := now + Z.max 0 wait; captured := args |}];
     nextHandle := id + 1;
     invoked := invoked st |}.

(** The host runs the callback of timer [t] at time [now], the timer
    being no longer set: [func(...args); timeoutId = null].  First [func]
    runs, with the calls [r] says it makes to the debounced function;
    the assignment is reached only when [func] returns. *)
Definition fire (now : Z) (t : Timer) (r : FuncRun) (st : State) : State :=
  let st :=
    {| timeoutId := timeoutId st;
       timers := clearTimeout (handle t) (timers st);
       nextHandle := nextHandle st;
       invoked := invoked st ++ [(now, captured t)] |} in
  let st := fold_left (fun st args => debounced now args st) (reentrant r) st in
  if throws r then st
  else {| timeoutId := None;
          timers := timers st;
          nextHandle := nextHandle st;
          invoked := invoked st |}.

(** What can happen to a debounced function: it is called, or the host
    fires one of the timers that are set and due. *)
Inductive Event :=
| Call (now : Z) (args : Args)
| Fire (now : Z) (t : Timer) (r : FuncRun).

Inductive step : State -> Event -> State -> Prop :=
| step_call now args st : step st (Call now args) (debounced now args st)
| step_fire now t r st :
    In t (timers st) -> due t <= now -> step st (Fire now t r) (fire now t r st).

(** A run from the initial state, with the events in order. *)
Inductive run : list Event -> State -> Prop :=
| run_nil : run [] initial
| run_step events st e st' : run events st -> step st e st' -> run (events ++ [e]) st'.

(** [func] does not call the debounced function while it runs. *)
Definition noReentry (e : Event) : Prop :=
  match e with
  | Call _ _ => True
  | Fire _ _ r => reentrant r = []
  end.

(** [func] returns. *)
Definition returns (e : Event) : Prop :=
  match e with
  | Call _ _ => True
  | Fire _ _ r => throws r = false
  end.

(** The debouncer as one would specify it: the latest call not yet
    carried out, with the time from which it may be. *)
Fixpoint latest (events : list Event) (waiting : option (Z * Args)) : option (Z * Args) :=
  match events with
  | [] => waiting
  | Call now args :: rest => latest rest (Some (now + Z.max 0 wait, args))
  | Fire _ _ _ :: rest => latest rest None
  end.

(** The calls of [func] a specified debouncer makes along the events. *)
Fixpoint carriedOut (events : list Event) (waiting : option (Z * Args)) : list (Z * Args) :=
  match events with
  | [] => []
  | Call now args :: rest => carriedOut rest (Some (now + Z.max 0 wait, args))
  | Fire now _ _ :: rest =>
      match waiting with
      | Some (_, args) => (now, args) :: carriedOut rest None
      | None => carriedOut rest None
      end
  end.
End Debounce.
End Debounce.

(* ====================================================================== *)
(** * The course search beyond Latin-1                                     *)
(* ====================================================================== *)

(** Lower-casing keeps the length of a Latin-1 string.  The one code unit
    whose lower case is longer is U+0130, LATIN CAPITAL LETTER I WITH DOT
    ABOVE: [toLowerCase] turns it into the two code units U+0069 U+0307.
    [Wide] embeds the course search once more, over the alphabet that
    adds U+0130 and U+0307 (COMBINING DOT ABOVE) to Latin-1; like Latin-1
    it is closed under the string operations of the library.  Each
    definition is the one of the same name above, on these strings. *)
Module Wide.

Inductive CodeUnit :=
| Latin1 (c : ascii)
| U0130
| U0307.

Definition wstring : Type := list CodeUnit.

(** A Latin-1 string, as a string of the wider alphabet. *)
Fixpoint ofString (s : string) : wstring :=
  match s with
  | EmptyString => []
  | String c s' => Latin1 c :: ofString s'
  end.

Definition unitEqb (a b : CodeUnit) : bool :=
  match a, b with
  | Latin1 x, Latin1 y => Ascii.eqb x y
  | U0130, U0130 | U0307, U0307 => true
  | _, _ => false
  end.

(** [a === b] on strings *)
Definition eqb (a b : wstring) : bool := list_eqb unitEqb a b.

(** [toLowerCase]: the Latin-1 mapping, and U+0130 to U+0069 U+0307. *)
Definition lowerUnit (u : CodeUnit) : wstring :=
  match u with
  | Latin1 c => [Latin1 (JS.lowerChar c)]
  | U0130 => [Latin1 "i"%char; U0307]
  | U0307 => [U0307]
  end.

Definition toLowerCase (s : wstring) : wstring := flat_map lowerUnit s.

(** Neither of the two added code units is white space. *)
Definition isWhiteSpace (u : CodeUnit) : bool :=
  match u with
  | Latin1 c => JS.isWhiteSpace c
  | _ => false
  end.

Fixpoint trimStart (s : wstring) : wstring :=
  match s with
  | [] => []
  | u :: s' => if isWhiteSpace u then trimStart s' else s
  end.

Definition allWhite (s : wstring) : bool := forallb isWhiteSpace s.

Fixpoint trimEnd (s : wstring) : wstring :=
  match s with
  | [] => []
  | u :: s' => if allWhite s then [] else u :: trimEnd s'
  end.

Definition trim (s : wstring) : wstring := trimEnd (trimStart s).

(** [s.length], in code units *)
Definition length (s : wstring) : Z := Z.of_nat (List.length s).

Fixpoint startsWith (s p : wstring) : bool :=
  match p, s with
  | [], _ => true
  | _ :: _, [] => false
  | b :: p', a :: s' => unitEqb a b && startsWith s' p'
  end.

Fixpoint includes (s sub : wstring) : bool :=
  startsWith s sub ||
  match s with
  | [] => false
  | _ :: s' => includes s' sub
  end.

Fixpoint splitRuns (sep : CodeUnit -> bool) (cur : wstring) (inSep : bool)
    (s : wstring) : list wstring :=
  match s with
  | [] => [rev cur]
  | u :: s' =>
      if sep u then
        if inSep then splitRuns sep cur true s'
        else rev cur :: splitRuns sep [] true s'
      else splitRuns sep (u :: cur) false s'
  end.

(** [s.split(/\s+/)] *)
Definition splitWhite (s : wstring) : list wstring := splitRuns isWhiteSpace [] false s.

(** [parseFloat]: a decimal literal and the white space before it are
    Latin-1, so the number is read from the longest Latin-1 prefix. *)
Fixpoint latin1Prefix (s : wstring) : string :=
  match s with
  | Latin1 c :: s' => String c (latin1Prefix s')
  | _ => EmptyString
  end.

Definition parseFloat (s : wstring) : float := JS.parseFloat (latin1Prefix s).

(** [interface Course] *)
Module Course.
Record t := {
  code : wstring;
  name : wstring;
  rank : wstring;
  institution : wstring;
  campus : wstring;
  category : option Category;
  rankNum : option float;
  searchText : option wstring;
  prerequisites : option (list wstring);
  duration : option wstring;
  faculty : option wstring;
  vtacUrl : option wstring;
  description : option wstring;
  fullTime : option bool;
  partTime : option bool
}.

Definition make (code name rank institution campus : wstring) : t :=
  {| code := code; name := name; rank := rank; institution := institution;
     campus := campus; category := None; rankNum := None;
     searchText := None; prerequisites := None; duration := None;
     faculty := None; vtacUrl := None; description := None;
     fullTime := None; partTime := None |}.
End Course.

(** [interface EnrichedCourse extends Course] *)
Module EnrichedCourse.
Record t := {
  course : Course.t;
  category : Category;
  rankNum : float;
  searchText : wstring
}.
End EnrichedCourse.

Section Search.
(** [fuse.search(query)] of the fuse.js library. *)
Variable fuseSearch : forall T : Type, Fuse.t T -> wstring -> list (Fuse.Result T).

Definition enrichCourse (atar : float) (c : Course.t) : EnrichedCourse.t :=
  let '(category, rankNum) :=
    if eqb (Course.rank c) (ofString "N/P") || eqb (Course.rank c) (ofString "L/N")
       || eqb (Course.rank c) (ofString "RC")
    then (unknown, zero)
    else
      let rankNum := parseFloat (Course.rank c) in
      if negb (JS.isNaN rankNum) then
        if (rankNum <? atar - 5)%float then (safe, rankNum)
        else if (atar + 5 <? rankNum)%float then (reach, rankNum)
        else (target, rankNum)
      else (unknown, rankNum) in
  {| EnrichedCourse.course := c;
     EnrichedCourse.category := category;
     EnrichedCourse.rankNum := rankNum;
     EnrichedCourse.searchText :=
       (Course.institution c ++ ofString " " ++ Course.name c ++ ofString " "
        ++ Course.code c)%list |}.

Definition enrichCourses (courses : list Course.t) (atar : float)
    : list EnrichedCourse.t :=
  map (enrichCourse atar) courses.

(** [split(/\s+/).filter(w => w.length >= 2)] *)
Definition qualifyingWords (s : wstring) : list wstring :=
  filter (fun w => 2 <=? length w) (splitWhite s).

Definition wordScore (c : EnrichedCourse.t) (word : wstring) : Z :=
  let institution := toLowerCase (Course.institution (EnrichedCourse.course c)) in
  let name := toLowerCase (Course.name (EnrichedCourse.course c)) in
  if eqb institution word then 100
  else if eqb name word then 90
  else if startsWith institution word then 50
  else if startsWith name word then 40
  else if includes institution (ofString " " ++ word)%list then 20
  else if includes name (ofString " " ++ word)%list then 15
  else 1.

Definition courseScore (words : list wstring) (c : EnrichedCourse.t) : Z :=
  fold_left (fun score word => score + wordScore c word) words 0.

Definition containsAllWords (words : list wstring) (c : EnrichedCourse.t) : bool :=
  let text := toLowerCase (EnrichedCourse.searchText c) in
  forallb (fun word => includes text word) words.

Definition wordBasedSearch (courses : list EnrichedCourse.t) (searchTerm : wstring)
    : list EnrichedCourse.t :=
  let words := qualifyingWords (toLowerCase searchTerm) in
  if Z.of_nat (List.length words) =? 0 then courses
  else
    let matches := filter (containsAllWords words) courses in
    if Z.of_nat (List.length matches) =? 0 then []
    else
      let scored := map (fun c => (c, courseScore words c)) matches in
      let scored := JS.sort (fun a b => 0 <? snd b - snd a) scored in
      map fst scored.

(** [interface CourseSearchOptions] *)
Record CourseSearchOptions := {
  searchTerm : option wstring;
  categoryFilter : option CategoryFilter;
  atar : option float;
  limit : option Z
}.

Definition rankAfter (a b : EnrichedCourse.t) : bool :=
  let ua := Category_eqb (EnrichedCourse.category a) unknown in
  let ub := Category_eqb (EnrichedCourse.category b) unknown in
  if ua && negb ub then true
  else if negb ua && ub then false
  else JS.positive (EnrichedCourse.rankNum b - EnrichedCourse.rankNum a)%float.

Definition courseSearchStep (now now' : Z) (cache : SearchCache EnrichedCourse.t)
    (enriched : list EnrichedCourse.t) (searchTerm : wstring)
    : list EnrichedCourse.t * SearchCache EnrichedCourse.t :=
  let trimmed := trim searchTerm in
  let wordMatches := wordBasedSearch enriched trimmed in
  let isMultiWord := 1 <? Z.of_nat (List.length (qualifyingWords trimmed)) in
  if (0 <? Z.of_nat (List.length wordMatches))
     && (isMultiWord || (3 <=? Z.of_nat (List.length wordMatches)))
  then (wordMatches, cache)
  else
    let '(fuse, cache) := createFuzzySearch now now' cache enriched courseFuzzyOptions in
    let searchResults := fuseSearch fuse trimmed in
    (map (@Fuse.item _) searchResults, cache).

(** [searchTerm && searchTerm.trim()] *)
Definition hasSearch (searchTerm : option wstring) : option wstring :=
  match searchTerm with
  | Some s => if negb (eqb s []) && negb (eqb (trim s) []) then Some s else None
  | None => None
  end.

(** [!searchTerm] *)
Definition noSearchTerm (searchTerm : option wstring) : bool :=
  match searchTerm with
  | Some s => eqb s []
  | None => true
  end.

Definition searchCourses (now now' : Z) (cache : SearchCache EnrichedCourse.t)
    (courses : list Course.t) (options : CourseSearchOptions)
    : list EnrichedCourse.t * SearchCache EnrichedCourse.t :=
  let atar := match atar options with Some a => a | None => zero end in
  let enriched := enrichCourses courses atar in
  let '(results, cache) :=
    match hasSearch (searchTerm options) with
    | Some s => courseSearchStep now now' cache enriched s
    | None => (enriched, cache)
    end in
  let results :=
    match categoryFilter options with
    | Some (only category) =>
        filter (fun c => Category_eqb (EnrichedCourse.category c) category) results
    | _ => results
    end in
  let results :=
    if noSearchTerm (searchTerm options) then JS.sort rankAfter results else results in
  let results :=
    match limit options with
    | Some limit => if (negb (limit =? 0)) && (0 <? limit) then JS.slice0 results limit
                    else results
    | None => results
    end in
  (results, cache).
End Search.
End Wide.

(* ====================================================================== *)
(** * The vocabulary of the specification                                  *)
(* ====================================================================== *)

(** The three rank codes that stand for "no published rank". *)
Definition isRankCode (r : string) : bool :=
  String.eqb r "N/P" || String.eqb r "L/N" || String.eqb r "RC".

(** The tiers of the specification for one word, best first, each with
    its bonus; a word counts for the first tier that applies, and for
    [1] when none does. *)
Definition wordTiers (c : EnrichedCourse.t) (word : string) : list (bool * Z) :=
  let institution := JS.toLowerCase (Course.institution (EnrichedCourse.course c)) in
  let name := JS.toLowerCase (Course.name (EnrichedCourse.course c)) in
  [ (String.eqb institution word, 100);
    (String.eqb name word, 90);
    (JS.startsWith institution word, 50);
    (JS.startsWith name word, 40);
    (JS.includes institution (" " ++ word), 20);
    (JS.includes name (" " ++ word), 15) ].

Definition firstTier (tiers : list (bool * Z)) (otherwise : Z) : Z :=
  match find fst tiers with
  | Some (_, bonus) => bonus
  | None => otherwise
  end.

Definition sumZ (l : list Z) : Z := fold_right Z.add 0 l.

(** The total score of the specification. *)
Definition totalScore (words : list string) (c : EnrichedCourse.t) : Z :=
  sumZ (map (fun word => firstTier (wordTiers c word) 1) words).

(** The AND filter of the specification. *)
Definition hasEveryWord (words : list string) (c : EnrichedCourse.t) : Prop :=
  forall word, In word words ->
    JS.includes (JS.toLowerCase (EnrichedCourse.searchText c)) word = true.

(** The steps of [searchCourses] that follow the search for a term that
    is not blank: the category filter and the limit. *)
Definition afterSearch (options : CourseSearchOptions) (results : list EnrichedCourse.t)
    : list EnrichedCourse.t :=
  let results :=
    match categoryFilter options with
    | Some (only category) =>
        filter (fun c => Category_eqb (EnrichedCourse.category c) category) results
    | _ => results
    end in
  match limit options with
  | Some limit => if 0 <? limit then JS.slice0 results limit else results
  | None => results
  end.

(** The condition under which the word-based result is used, for the
    words counted. *)
Definition useWordMatches (Word Course : Type) (words : list Word)
    (wordMatches : list Course) : Prop :=
  wordMatches <> [] /\
  (2 <= List.length words \/ 3 <= List.length wordMatches)%nat.

(** [afterSearch] for the course search of [Wide]. *)
Definition afterSearchWide (options : Wide.CourseSearchOptions)
    (results : list Wide.EnrichedCourse.t) : list Wide.EnrichedCourse.t :=
  let results :=
    match Wide.categoryFilter options with
    | Some (only category) =>
        filter (fun c => Category_eqb (Wide.EnrichedCourse.category c) category) results
    | _ => results
    end in
  match Wide.limit options with
  | Some limit => if 0 <? limit then JS.slice0 results limit else results
  | None => results
  end.

(** The exact-match test of the specification for one item: some key of
    [exactKeys] holds a string that, lower-cased, equals the query or
    starts with it. *)
Definition isExactMatch (T : Type) (getField : T -> string -> JsValue)
    (q : string) (exactKeys : list string) (item : T) : bool :=
  existsb
    (fun key =>
       match getField item key with
       | JsString value =>
           String.eqb (JS.toLowerCase value) q || JS.startsWith (JS.toLowerCase value) q
       | _ => false
       end)
    exactKeys.

(** The priority of the specification: every bonus that applies is added. *)
Definition bonus (applies : bool) (points : Z) : Z := if applies then points else 0.

Definition prioritySum (q : string) (aliasTargets : list string) (s : Subject.t) : Z :=
  let name := JS.toLowerCase (Subject.name s) in
  let code := JS.toLowerCase (Subject.code s) in
  sumZ (map (fun target => bonus (String.eqb name (JS.toLowerCase target)) 100) aliasTargets)
  + sumZ (map (fun target => bonus (JS.startsWith name (JS.toLowerCase target)) 50) aliasTargets)
  + bonus (String.eqb name q) 80
  + bonus (JS.startsWith name q) 40
  + bonus (String.eqb code q) 70
  + bonus (JS.startsWith code q) 30.

Definition priorityOf (q : string) (aliasTargets : list string) (s : EnrichedSubject.t) : Z :=
  prioritySum q aliasTargets (EnrichedSubject.subject s).

(** The fuzzy tier: the fuzzy search of [q] over the zero-priority
    subjects, best score first. *)
Definition fuzzyTierOf
    (fuseSearch : forall T : Type, Fuse.t T -> string -> list (Fuse.Result T))
    (now now' : Z) (cache : SearchCache EnrichedSubject.t)
    (zero : list EnrichedSubject.t) (q : string) : list EnrichedSubject.t :=
  match zero with
  | [] => []
  | _ :: _ =>
      let index := fst (createFuzzySearch now now' cache zero subjectFuzzyOptions) in
      map fst
        (JS.sort (fun a b => JS.positive (scoreOr1 (snd a) - scoreOr1 (snd b))%float)
           (map (fun r => (Fuse.item r, Fuse.score r)) (fuseSearch _ index q)))
  end.

(** The order of the specification: year descending with a missing year
    as [0], then name ascending by the collation. *)
Definition studentBefore (localeCompare : string -> string -> Z) (a b : Student.t) : Prop :=
  yearOr0 (Student.year b) < yearOr0 (Student.year a) \/
  (yearOr0 (Student.year a) = yearOr0 (Student.year b) /\
   localeCompare (Student.name a) (Student.name b) <= 0).

(** The cache holds still between a call made at [now1] (storing at
    [now1']) and the next one made at [now2] (storing at [now2']): the
    clock reads the same as before, or the sweep at [now2] finds nothing
    to remove from the cache the first call left. *)
Definition cacheHolds (T : Type) (now1 now1' now2 now2' : Z) (cache : SearchCache T) : Prop :=
  (now2 = now1 /\ now2' = now1') \/ clearExpiredCache now2 cache = cache.

(** A cache entry agrees with its key: the index was built from as many
    records as the key says. *)
Definition keyedBy (T : Type) (key : CacheKey) (e : CachedSearch T) : Prop :=
  fst key = Z.of_nat (List.length (Fuse.docs (fuse e))).

Definition wellKeyed (T : Type) (cache : SearchCache T) : Prop :=
  Forall (fun p => keyedBy (fst p) (snd p)) cache.

(** What the library can do to the cache: an access through
    [createFuzzySearch], or [clearSearchCache]. *)
Inductive CacheOp (T : Type) :=
| Access (now now' : Z) (data : list T) (options : SearchOptions.t)
| Clear.

Definition applyOp (T : Type) (cache : SearchCache T) (op : CacheOp T) : SearchCache T :=
  match op with
  | Access now now' data options => snd (createFuzzySearch now now' cache data options)
  | Clear _ => clearSearchCache cache
  end.

(** The cache after a sequence of operations on the empty cache the
    module starts with. *)
Definition runOps (T : Type) (ops : list (CacheOp T)) : SearchCache T :=
  fold_left (@applyOp T) ops [].

(** The stages of [searchCourses] after the search: the category filter,
    the rank sort of a call without a search term, and the limit. *)
Definition categoryStage (options : CourseSearchOptions) (results : list EnrichedCourse.t)
    : list EnrichedCourse.t :=
  match categoryFilter options with
  | Some (only category) =>
      filter (fun c => Category_eqb (EnrichedCourse.category c) category) results
  | _ => results
  end.

Definition rankStage (options : CourseSearchOptions) (results : list EnrichedCourse.t)
    : list EnrichedCourse.t :=
  if noSearchTerm (searchTerm options) then JS.sort rankAfter results else results.

Definition limitStage (options : CourseSearchOptions) (results : list EnrichedCourse.t)
    : list EnrichedCourse.t :=
  match limit options with
  | Some limit =>
      if negb (limit =? 0) && (0 <? limit) then JS.slice0 results limit else results
  | None => results
  end.

(** A course without a known category is followed by such courses only. *)
Definition unknownAfter (a b : EnrichedCourse.t) : Prop :=
  EnrichedCourse.category a = unknown -> EnrichedCourse.category b = unknown.

(** The test of [normaliseSubjectQuery] for one alias: the normalised
    query is the alias, or starts with the alias and a space. *)
Definition aliasMatches (q : string) (entry : string * list string) : bool :=
  String.eqb q (fst entry) || JS.startsWith q (fst entry ++ " ").

(** An alias whose key is written in lower case. *)
Definition lowerCaseKey (entry : string * list string) : bool :=
  String.eqb (JS.toLowerCase (fst entry)) (fst entry).

(** A word of a name or of a query: not empty, without white space and
    without a comma. *)
Fixpoint noSeparator (w : string) : bool :=
  match w with
  | EmptyString => true
  | String c w' =>
      negb (JS.isWhiteSpace c || Ascii.eqb c ","%char) && noSeparator w'
  end.

Definition plainWord (w : string) : Prop := w <> "" /\ noSeparator w = true.

(** [words.join(" ")] *)
Definition joinWords (words : list string) : string := String.concat " " words.

(** A student with name, school and subject names in lower case. *)
Definition lowerCaseStudent (s : Student.t) : Student.t :=
  {| Student.name := JS.toLowerCase (Student.name s);
     Student.school := JS.toLowerCase (Student.school s);
     Student.subjects :=
       map (fun x => {| ss_subject := JS.toLowerCase (ss_subject x);
                        ss_score := ss_score x |})
           (Student.subjects s);
     Student.year := Student.year s |}.

(** No character of [w] is a separator of class [sep]. *)
Fixpoint avoids (sep : ascii -> bool) (w : string) : bool :=
  match w with
  | EmptyString => true
  | String c w' => negb (sep c) && avoids sep w'
  end.

(** What holds of every state a run of a debounced function reaches
    when [func] never calls the debounced function: no timer is set, or
    the one timer of the latest call; [timeoutId] is then null, unless a
    run of [func] has thrown. *)
Definition debounceInvariant (Args : Type) (wait : Z)
    (events : list (Debounce.Event Args)) (st : Debounce.State Args) : Prop :=
  match Debounce.latest wait events None with
  | Some (d, a) =>
      exists id,
        Debounce.timeoutId st = Some id /\
        Debounce.timers st = [{| Debounce.handle := id; Debounce.due := d;
                                 Debounce.captured := a |}] /\
        exists t0, In (Debounce.Call t0 a) events /\ d = t0 + Z.max 0 wait
  | None =>
      Debounce.timers st = [] /\
      (Forall (@Debounce.returns Args) events -> Debounce.timeoutId st = None)
  end /\
  Debounce.invoked st = Debounce.carriedOut wait events None /\
  Forall (fun call => exists t0, In (Debounce.Call t0 (snd call)) events /\
                                 t0 + Z.max 0 wait <= fst call)
         (Debounce.invoked st).

(* ====================================================================== *)
(** * Example data                                                         *)
(* ====================================================================== *)

(** A stand-in for [fuse.search] in the examples: every record of the
    index matches, in index order. *)
Definition matchEverything (T : Type) (index : Fuse.t T) (query : string)
    : list (Fuse.Result T) :=
  map (fun p => {| Fuse.item := snd p;
                   Fuse.refIndex := Z.of_nat (fst p);
                   Fuse.score := Some 0.5%float |})
      (combine (seq 0 (List.length (Fuse.docs index))) (Fuse.docs index)).

(** A collation for the examples: by code unit. *)
Fixpoint codeUnitCompare (a b : string) : Z :=
  match a, b with
  | EmptyString, EmptyString => 0
  | EmptyString, String _ _ => -1
  | String _ _, EmptyString => 1
  | String x a', String y b' =>
      if (JS.code x <? JS.code y)%nat then -1
      else if (JS.code y <? JS.code x)%nat then 1
      else codeUnitCompare a' b'
  end.

Definition exampleCourses : list Course.t :=
  [ Course.make "1001" "Bachelor of Arts" "80" "Monash University" "Clayton";
    Course.make "1002" "Bachelor of Medicine" "95" "Monash University" "Clayton";
    Course.make "1003" "Medicine" "99" "Monash" "Clayton" ].

Definition exampleCourseOptions (term : string) : CourseSearchOptions :=
  {| searchTerm := Some term; categoryFilter := Some all;
     atar := Some 90%float; limit := Some 10 |}.

(** Records for [hybridSearch]: an item is a reference, its fields are
    read from the table. *)
Definition exampleField (item : nat) (key : string) : JsValue :=
  if String.eqb key "name" then
    match nth_error ["Physics"; "Psychology"; "Physical Education"] item with
    | Some s => JsString s
    | None => JsUndefined
    end
  else JsUndefined.

Definition exampleSubjects : list Subject.t :=
  [ Subject.make "MA10" "General Mathematics";
    Subject.make "MA11" "Mathematical Methods" ].

Definition exampleSubjectOptions : SubjectSearchOptions :=
  {| query := "methods";
     aliases := Some [("methods", ["Mathematical Methods"])];
     subjectLimit := None |}.

(** Three subjects and a request without aliases, for two searches in a
    row over one list. *)
Definition specialist : Subject.t := Subject.make "MA12" "Specialist Mathematics".
Definition methods : Subject.t := Subject.make "MA11" "Mathematical Methods".
Definition chemistry : Subject.t := Subject.make "CH10" "Chemistry".

Definition subjectQuery (q : string) : SubjectSearchOptions :=
  {| query := q; aliases := None; subjectLimit := None |}.

(** Two courses, the first with U+0130 in its name, and the stand-in for
    [fuse.search] on the strings of the wider alphabet. *)
Definition wideCourses : list Wide.Course.t :=
  [ Wide.Course.make (Wide.ofString "2001")
      (Wide.U0130 :: Wide.ofString "stanbul Studies")
      (Wide.ofString "80") (Wide.ofString "Monash University") (Wide.ofString "Clayton");
    Wide.Course.make (Wide.ofString "2002") (Wide.ofString "Bachelor of Arts")
      (Wide.ofString "85") (Wide.ofString "Monash University") (Wide.ofString "Clayton") ].

Definition wideMatchEverything (T : Type) (index : Fuse.t T) (query : Wide.wstring)
    : list (Fuse.Result T) :=
  matchEverything index "".

(* ====================================================================== *)
(** * Facts about the runtime primitives                                   *)
(* ====================================================================== *)

Module JSFacts.
Import JS.

Lemma toLowerCase_length (s : string) :
  String.length (toLowerCase s) = String.length s.
Proof. induction s as [|c s IH]; simpl; [reflexivity | now rewrite IH]. Qed.

Lemma toLowerCase_empty_iff (s : string) : toLowerCase s = "" <-> s = "".
Proof. destruct s; simpl; split; intros H; try reflexivity; discriminate H. Qed.

Lemma isWhiteSpace_lowerChar (c : ascii) : isWhiteSpace (lowerChar c) = isWhiteSpace c.
Proof. destruct c as [[] [] [] [] [] [] [] []]; reflexivity. Qed.

Lemma toLowerCase_revString (acc s : string) :
  toLowerCase (revString acc s) = revString (toLowerCase acc) (toLowerCase s).
Proof.
  revert acc; induction s as [|c s IH]; intros acc; simpl; [reflexivity|].
  now rewrite IH.
Qed.

(** Lower-casing commutes with splitting on white space. *)
Lemma splitRuns_toLowerCase (cur : string) (inSep : bool) (s : string) :
  splitRuns isWhiteSpace (toLowerCase cur) inSep (toLowerCase s)
  = map toLowerCase (splitRuns isWhiteSpace cur inSep s).
Proof.
  revert cur inSep; induction s as [|c s IH]; intros cur inSep; simpl.
  - now rewrite toLowerCase_revString.
  - rewrite isWhiteSpace_lowerChar.
    destruct (isWhiteSpace c), inSep; simpl.
    + apply IH.
    + rewrite toLowerCase_revString. f_equal. apply (IH EmptyString true).
    + apply (IH (String c cur) false).
    + apply (IH (String c cur) false).
Qed.

Lemma splitWhite_toLowerCase (s : string) :
  splitWhite (toLowerCase s) = map toLowerCase (splitWhite s).
Proof. apply (splitRuns_toLowerCase EmptyString false s). Qed.

Lemma startsWith_empty (s : string) : startsWith s "" = true.
Proof. destruct s; reflexivity. Qed.

Lemma includes_empty (s : string) : includes s "" = true.
Proof. destruct s; reflexivity. Qed.

Lemma startsWith_nonempty_of_empty (p : string) : p <> "" -> startsWith "" p = false.
Proof. destruct p; [congruence | reflexivity]. Qed.

Lemma length_zero_iff (s : string) : (length s =? 0) = String.eqb s "".
Proof. destruct s; reflexivity. Qed.

Lemma length_nonneg (s : string) : 0 <= length s.
Proof. unfold length; lia. Qed.

(** A string of white space only trims to the empty string, and only
    such a string does. *)
Lemma trimStart_allWhite (s : string) : allWhite s = true -> trimStart s = "".
Proof.
  induction s as [|c s IH]; simpl; [reflexivity|].
  destruct (isWhiteSpace c); simpl; [exact IH | discriminate].
Qed.

Lemma trimEnd_empty_iff (s : string) : trimEnd s = "" <-> allWhite s = true.
Proof.
  destruct s as [|c s]; simpl; [tauto|].
  destruct (isWhiteSpace c && allWhite s); split; intros H;
    try reflexivity; discriminate H.
Qed.

Lemma trimStart_head (s : string) :
  match trimStart s with
  | EmptyString => True
  | String c _ => isWhiteSpace c = false
  end.
Proof.
  induction s as [|c s IH]; simpl; [exact I|].
  destruct (isWhiteSpace c) eqn:E; [exact IH | exact E].
Qed.

Lemma allWhite_trimStart (s : string) : allWhite (trimStart s) = allWhite s.
Proof.
  induction s as [|c s IH]; simpl; [reflexivity|].
  destruct (isWhiteSpace c) eqn:E; simpl; [exact IH | now rewrite E].
Qed.

Lemma trim_empty_iff (s : string) : trim s = "" <-> allWhite s = true.
Proof. unfold trim. rewrite trimEnd_empty_iff. now rewrite allWhite_trimStart. Qed.

End JSFacts.

(** ** The stable sort *)

Section SortFacts.
Variable A : Type.

Lemma insert_perm (after : A -> A -> bool) (x : A) (l : list A) :
  Permutation (JS.insert after x l) (x :: l).
Proof.
  induction l as [|y l IH]; simpl; [reflexivity|].
  destruct (after x y); [|reflexivity].
  rewrite IH. apply perm_swap.
Qed.

Lemma sort_perm (after : A -> A -> bool) (l : list A) :
  Permutation (JS.sort after l) l.
Proof.
  induction l as [|x l IH]; simpl; [reflexivity|].
  rewrite insert_perm. now constructor.
Qed.

(** Sorting a decorated list is decorating the sorted list. *)
Lemma sort_map (B : Type) (g : A -> B) (after : A -> A -> bool)
    (after' : B -> B -> bool) (l : list A) :
  (forall a b, after' (g a) (g b) = after a b) ->
  JS.sort after' (map g l) = map g (JS.sort after l).
Proof.
  intros Hg. induction l as [|x l IH]; simpl; [reflexivity|].
  rewrite IH. generalize (JS.sort after l) as s.
  induction s as [|y s IHs]; simpl; [reflexivity|].
  rewrite Hg. destruct (after x y); simpl; [now rewrite IHs | reflexivity].
Qed.

Lemma filter_decorated (B : Type) (g : A -> B) (p : B -> bool) (l : list A) :
  filter p (map g l) = map g (filter (fun x => p (g x)) l).
Proof.
  induction l as [|x l IH]; simpl; [reflexivity|].
  destruct (p (g x)); simpl; now rewrite IH.
Qed.

(** A comparator [b.key - a.key]: descending by an integer key. *)
Variable key : A -> Z.

Lemma insert_descending (x : A) (l : list A) :
  StronglySorted (JS.keyGe key) l ->
  StronglySorted (JS.keyGe key) (JS.insert (JS.descending key) x l).
Proof.
  induction 1 as [|y l Hs IH Hy]; simpl.
  - repeat constructor.
  - destruct (JS.descending key x y) eqn:E; unfold JS.descending in E.
    + apply Z.ltb_lt in E. constructor; [exact IH|].
      eapply Permutation_Forall; [symmetry; apply insert_perm|].
      constructor; [unfold JS.keyGe; lia | exact Hy].
    + apply Z.ltb_ge in E.
      constructor; [now constructor|].
      constructor; [unfold JS.keyGe; lia|].
      eapply Forall_impl; [|exact Hy]. unfold JS.keyGe. intros; lia.
Qed.

Lemma sort_descending (l : list A) :
  StronglySorted (JS.keyGe key) (JS.sort (JS.descending key) l).
Proof.
  induction l as [|x l IH]; simpl; [constructor | now apply insert_descending].
Qed.

(** Stability: the elements of one key keep their input order. *)
Lemma insert_stable (k : Z) (x : A) (l : list A) :
  filter (fun a => key a =? k) (JS.insert (JS.descending key) x l)
  = filter (fun a => key a =? k) (x :: l).
Proof.
  induction l as [|y l IH]; simpl; [reflexivity|].
  destruct (JS.descending key x y) eqn:E; unfold JS.descending in E; simpl.
  - rewrite IH. simpl.
    destruct (key x =? k) eqn:Ex; [|reflexivity].
    apply Z.ltb_lt in E. apply Z.eqb_eq in Ex.
    replace (key y =? k) with false; [reflexivity|].
    symmetry. apply Z.eqb_neq. lia.
  - reflexivity.
Qed.

Lemma sort_stable (k : Z) (l : list A) :
  filter (fun a => key a =? k) (JS.sort (JS.descending key) l)
  = filter (fun a => key a =? k) l.
Proof.
  induction l as [|x l IH]; simpl; [reflexivity|].
  rewrite insert_stable. simpl. now rewrite IH.
Qed.
End SortFacts.

(* ====================================================================== *)
(** * Course classification ([enrichCourses])                              *)
(* ====================================================================== *)

Section Classification.
Variable atar : float.
Variable c : Course.t.

(** A rank code gives [unknown] and the initial [rankNum = 0]. *)
Lemma enrichCourse_rank_code :
  isRankCode (Course.rank c) = true ->
  EnrichedCourse.category (enrichCourse atar c) = unknown /\
  EnrichedCourse.rankNum (enrichCourse atar c) = zero.
Proof.
  unfold isRankCode, enrichCourse. intros ->. split; reflexivity.
Qed.

(** Any other rank that parses is classified by the two strict
    comparisons, and [rankNum] is the parsed number. *)
Lemma enrichCourse_parsed :
  isRankCode (Course.rank c) = false ->
  JS.isNaN (JS.parseFloat (Course.rank c)) = false ->
  let rankNum := JS.parseFloat (Course.rank c) in
  EnrichedCourse.rankNum (enrichCourse atar c) = rankNum /\
  EnrichedCourse.category (enrichCourse atar c) =
    if (rankNum <? atar - 5)%float then safe
    else if (atar + 5 <? rankNum)%float then reach
    else target.
Proof.
  unfold isRankCode, enrichCourse. intros -> ->. simpl.
  destruct (JS.parseFloat (Course.rank c) <? atar - 5)%float;
    [|destruct (atar + 5 <? JS.parseFloat (Course.rank c))%float];
    split; reflexivity.
Qed.

(** A rank that does not parse gives [unknown]; [rankNum] has by then
    been overwritten with the [NaN] that [parseFloat] returned. *)
Lemma enrichCourse_unparsable :
  isRankCode (Course.rank c) = false ->
  JS.isNaN (JS.parseFloat (Course.rank c)) = true ->
  EnrichedCourse.category (enrichCourse atar c) = unknown /\
  EnrichedCourse.rankNum (enrichCourse atar c) = JS.parseFloat (Course.rank c).
Proof.
  unfold isRankCode, enrichCourse. intros -> ->. split; reflexivity.
Qed.

(** The derived search text. *)
Lemma enrichCourse_searchText :
  EnrichedCourse.searchText (enrichCourse atar c)
  = Course.institution c ++ " " ++ Course.name c ++ " " ++ Course.code c.
Proof.
  unfold enrichCourse.
  repeat match goal with |- context [if ?b then _ else _] => destruct b end;
    reflexivity.
Qed.
End Classification.

(** No binary64 number is smaller than itself. *)
Lemma float_ltb_irrefl (x : float) : (x <? x)%float = false.
Proof.
  rewrite ltb_spec. unfold SFltb.
  destruct (Prim2SF x) as [s|s| |s m e]; simpl; try reflexivity;
    try (destruct s; reflexivity).
  rewrite Z.compare_refl. change (PosDef.Pos.compare_cont Eq m m) with (m ?= m)%positive.
  rewrite Pos.compare_refl. destruct s; reflexivity.
Qed.

(** The boundary: a rank equal to [atar - 5] or to [atar + 5] is neither
    below the first nor above the second, so it is a [target] (the window
    [atar - 5 .. atar + 5] is never inverted for an ATAR). *)
Lemma enrichCourse_boundary (atar : float) (c : Course.t) :
  isRankCode (Course.rank c) = false ->
  JS.isNaN (JS.parseFloat (Course.rank c)) = false ->
  (atar + 5 <? atar - 5)%float = false ->
  JS.parseFloat (Course.rank c) = (atar - 5)%float \/
  JS.parseFloat (Course.rank c) = (atar + 5)%float ->
  EnrichedCourse.category (enrichCourse atar c) = target.
Proof.
  intros Hc Hn Hw Hb.
  destruct (enrichCourse_parsed atar c Hc Hn) as [_ ->].
  destruct Hb as [-> | ->]; rewrite ?float_ltb_irrefl, ?Hw; reflexivity.
Qed.

Example window_not_inverted :
  map (fun atar => (atar + 5 <? atar - 5)%float)
      [0; 50; 90; 99.95; 100; 9007199254740992; 1e308; infinity; neg_infinity; nan]%float
  = [false; false; false; false; false; false; false; false; false; false].
Proof. vm_compute. reflexivity. Qed.

Example classify_around_90 :
  map (fun r => EnrichedCourse.category
                  (enrichCourse 90 (Course.make "1" "Arts" r "Uni" "City")))
      ["N/P"; "L/N"; "RC"; "84.95"; "85"; "90"; "95"; "95.05"]
  = [unknown; unknown; unknown; safe; target; target; target; reach].
Proof. vm_compute. reflexivity. Qed.

(** C1: [enrichCourses] on a rank that does not parse.  The specification
    asks for category [unknown] with [rankNum = 0]; the course comes back
    with category [unknown] and [rankNum = NaN], unlike a course with one
    of the rank codes ["N/P"], ["L/N"], ["RC"], which keeps the [0]. *)
Theorem enrichCourses_unparsable_rank_NaN :
  let c := Course.make "3800538001" "Bachelor of Arts" "N/A" "Monash University" "Clayton" in
  enrichCourses [c] 90
  = [ {| EnrichedCourse.course := c;
         EnrichedCourse.category := unknown;
         EnrichedCourse.rankNum := nan;
         EnrichedCourse.searchText := "Monash University Bachelor of Arts 3800538001" |} ]
  /\ JS.isNaN nan = true /\ nan <> zero.
Proof.
  split; [vm_compute; reflexivity|].
  split; [reflexivity|].
  intros H. assert (E : JS.isNaN nan = JS.isNaN zero) by now rewrite H.
  vm_compute in E. discriminate E.
Qed.

(* ====================================================================== *)
(** * Word-based course search ([wordBasedSearch])                         *)
(* ====================================================================== *)

Lemma wordScore_firstTier (c : EnrichedCourse.t) (word : string) :
  wordScore c word = firstTier (wordTiers c word) 1.
Proof.
  unfold wordScore, firstTier, wordTiers; simpl.
  repeat match goal with |- context [if ?b then _ else _] => destruct b; simpl end;
    reflexivity.
Qed.

Lemma fold_left_add (A : Type) (f : A -> Z) (l : list A) (acc : Z) :
  fold_left (fun s x => s + f x) l acc = acc + sumZ (map f l).
Proof.
  revert acc; induction l as [|x l IH]; intros acc; simpl; [lia|].
  rewrite IH. unfold sumZ. lia.
Qed.

Lemma courseScore_totalScore (words : list string) (c : EnrichedCourse.t) :
  courseScore words c = totalScore words c.
Proof.
  unfold courseScore, totalScore. rewrite fold_left_add. simpl.
  f_equal. apply map_ext. intros w. apply wordScore_firstTier.
Qed.

Lemma containsAllWords_spec (words : list string) (c : EnrichedCourse.t) :
  containsAllWords words c = true <-> hasEveryWord words c.
Proof. unfold containsAllWords, hasEveryWord. apply forallb_forall. Qed.

(** With at least one qualifying word, the result is the stable sort of
    the matching courses by their score. *)
Lemma wordBasedSearch_sort (courses : list EnrichedCourse.t) (searchTerm : string) :
  let words := qualifyingWords (JS.toLowerCase searchTerm) in
  words <> [] ->
  wordBasedSearch courses searchTerm
  = JS.sort (JS.descending (totalScore words)) (filter (containsAllWords words) courses).
Proof.
  intros words Hw. unfold wordBasedSearch. fold words.
  destruct words as [|w ws] eqn:E; [congruence|]. rewrite <- E in *.
  replace (Z.of_nat (List.length words) =? 0) with false
    by (rewrite E; reflexivity).
  destruct (filter (containsAllWords words) courses) as [|m ms] eqn:Em;
    [reflexivity|]. rewrite <- Em.
  replace (Z.of_nat (List.length (filter (containsAllWords words) courses)) =? 0)
    with false by (rewrite Em; reflexivity).
  rewrite (sort_map (fun c => (c, courseScore words c))
             (JS.descending (totalScore words))).
  - rewrite map_map. simpl. apply map_id.
  - intros a b. unfold JS.descending. simpl.
    now rewrite !courseScore_totalScore.
Qed.

(** C2: for a search term with at least one qualifying word,
    [wordBasedSearch] keeps exactly the courses whose lower-cased search
    text contains every qualifying word; the score of a course is the sum
    over the words of the first tier that applies (100, 90, 50, 40, 20,
    15, otherwise 1); the result is in descending order of score, and
    courses of equal score keep their input order. *)
Theorem wordBasedSearch_filters_scores_sorts
    (courses : list EnrichedCourse.t) (searchTerm : string) :
  let words := qualifyingWords (JS.toLowerCase searchTerm) in
  let result := wordBasedSearch courses searchTerm in
  words <> [] ->
  (forall c, In c result <-> In c courses /\ hasEveryWord words c) /\
  Permutation result (filter (containsAllWords words) courses) /\
  (forall c, courseScore words c = totalScore words c) /\
  StronglySorted (fun a b => totalScore words b <= totalScore words a) result /\
  (forall k,
     filter (fun c => totalScore words c =? k) result
     = filter (fun c => totalScore words c =? k)
              (filter (containsAllWords words) courses)).
Proof.
  intros words result Hw. subst result.
  rewrite (wordBasedSearch_sort courses searchTerm Hw). fold words.
  assert (P := sort_perm (JS.descending (totalScore words))
                 (filter (containsAllWords words) courses)).
  split; [|split; [exact P | split; [|split]]].
  - intros c. split.
    + intros H. apply (Permutation_in _ P) in H.
      apply filter_In in H. now rewrite containsAllWords_spec in H.
    + intros H. apply (Permutation_in _ (Permutation_sym P)).
      apply filter_In. now rewrite containsAllWords_spec.
  - apply courseScore_totalScore.
  - apply sort_descending.
  - intros k. apply sort_stable.
Qed.

(** ** The example of the specification *)

Lemma wordBasedSearch_witness :
  qualifyingWords (JS.toLowerCase "monash medicine") <> [] /\
  Permutation
    (wordBasedSearch (enrichCourses exampleCourses 90) "monash medicine")
    (filter (containsAllWords (qualifyingWords (JS.toLowerCase "monash medicine")))
            (enrichCourses exampleCourses 90)).
Proof.
  assert (H : qualifyingWords (JS.toLowerCase "monash medicine") <> [])
    by (vm_compute; discriminate).
  split; [exact H|].
  apply (wordBasedSearch_filters_scores_sorts
           (enrichCourses exampleCourses 90) "monash medicine" H).
Defined.

Example wordBasedSearch_monash_medicine :
  map (fun c => (Course.code (EnrichedCourse.course c), EnrichedCourse.category c,
                 totalScore ["monash"; "medicine"] c))
      (wordBasedSearch (enrichCourses exampleCourses 90) "monash medicine")
  = [("1003", reach, 190); ("1002", target, 65)].
Proof. vm_compute. reflexivity. Qed.

(* ====================================================================== *)
(** * Strategy selection ([searchCourses])                                 *)
(* ====================================================================== *)

Lemma qualifyingWords_toLowerCase (s : string) :
  qualifyingWords (JS.toLowerCase s) = map JS.toLowerCase (qualifyingWords s).
Proof.
  unfold qualifyingWords. rewrite JSFacts.splitWhite_toLowerCase.
  induction (JS.splitWhite s) as [|w l IH]; simpl; [reflexivity|].
  unfold JS.length at 1. rewrite JSFacts.toLowerCase_length. fold (JS.length w).
  destruct (2 <=? JS.length w); simpl; now rewrite IH.
Qed.

Lemma qualifyingWords_count (s : string) :
  List.length (qualifyingWords (JS.toLowerCase s)) = List.length (qualifyingWords s).
Proof. rewrite qualifyingWords_toLowerCase. apply length_map. Qed.

Lemma wordBasedSearch_no_words (courses : list EnrichedCourse.t) (searchTerm : string) :
  qualifyingWords (JS.toLowerCase searchTerm) = [] ->
  wordBasedSearch courses searchTerm = courses.
Proof. unfold wordBasedSearch. now intros ->. Qed.

Lemma hasSearch_some (s : string) : JS.trim s <> "" -> hasSearch (Some s) = Some s.
Proof.
  intros H. simpl.
  destruct (String.eqb_spec s "") as [->|_]; [now elim H|].
  destruct (String.eqb_spec (JS.trim s) ""); [contradiction | reflexivity].
Qed.

Lemma noSearchTerm_some (s : string) : JS.trim s <> "" -> noSearchTerm (Some s) = false.
Proof.
  intros H. simpl. destruct (String.eqb_spec s "") as [->|_]; [now elim H | reflexivity].
Qed.

Section Strategy.
Variable fuseSearch : forall T : Type, Fuse.t T -> string -> list (Fuse.Result T).

Lemma useWordMatches_test (term : string) (wordMatches : list EnrichedCourse.t) :
  (0 <? Z.of_nat (List.length wordMatches))
  && ((1 <? Z.of_nat (List.length (qualifyingWords term)))
      || (3 <=? Z.of_nat (List.length wordMatches))) = true
  <-> useWordMatches (qualifyingWords term) wordMatches.
Proof.
  unfold useWordMatches.
  rewrite andb_true_iff, orb_true_iff, Z.ltb_lt, Z.ltb_lt, Z.leb_le.
  destruct wordMatches; simpl List.length; split; intros [H1 H2];
    (split; [congruence || lia | lia]).
Qed.

(** For a term that is not blank, [searchCourses] is the search step
    followed by the category filter and the limit (no rank sort). *)
Lemma searchCourses_nonblank (now now' : Z) (cache : SearchCache EnrichedCourse.t)
    (courses : list Course.t) (options : CourseSearchOptions) (s : string) :
  searchTerm options = Some s ->
  JS.trim s <> "" ->
  searchCourses fuseSearch now now' cache courses options
  = let '(results, cache') :=
      courseSearchStep fuseSearch now now' cache
        (enrichCourses courses (match atar options with Some a => a | None => zero end))
        s in
    (afterSearch options results, cache').
Proof.
  intros Hs Ht. unfold searchCourses.
  rewrite Hs, (hasSearch_some s Ht), (noSearchTerm_some s Ht).
  destruct (courseSearchStep _ _ _ _ _ _) as [r c].
  unfold afterSearch. destruct (limit options) as [l|]; [|reflexivity].
  replace (negb (l =? 0) && (0 <? l)) with (0 <? l); [reflexivity|].
  destruct (Z.ltb_spec 0 l), (Z.eqb_spec l 0); simpl; try reflexivity; lia.
Qed.

(** The strategy on Latin-1 terms.  For a search term that is not blank,
    [searchCourses] continues with the word-based result exactly when
    that result is not empty and the trimmed term as typed - not
    lower-cased - has at least two words of two code units or more, or
    the result has at least three courses; otherwise it continues with
    the fuzzy search of the trimmed term over all enriched courses.  A
    term whose lower-cased form has no qualifying word makes the
    word-based search return all enriched courses. *)
Theorem searchCourses_strategy (now now' : Z) (cache : SearchCache EnrichedCourse.t)
    (courses : list Course.t) (options : CourseSearchOptions) (s : string) :
  let enriched :=
    enrichCourses courses (match atar options with Some a => a | None => zero end) in
  let term := JS.trim s in
  let wordsAsTyped := qualifyingWords term in
  let wordMatches := wordBasedSearch enriched term in
  searchTerm options = Some s ->
  term <> "" ->
  (qualifyingWords (JS.toLowerCase term) = [] -> wordMatches = enriched) /\
  (useWordMatches wordsAsTyped wordMatches ->
     searchCourses fuseSearch now now' cache courses options
     = (afterSearch options wordMatches, cache)) /\
  (~ useWordMatches wordsAsTyped wordMatches ->
     searchCourses fuseSearch now now' cache courses options
     = let '(fuse, cache') :=
         createFuzzySearch now now' cache enriched courseFuzzyOptions in
       (afterSearch options (map (@Fuse.item _) (fuseSearch fuse term)), cache')).
Proof.
  intros enriched term wordsAsTyped wordMatches Hs Ht.
  split; [apply wordBasedSearch_no_words|].
  rewrite (searchCourses_nonblank now now' cache courses options Hs Ht).
  fold enriched. unfold courseSearchStep. fold term. fold wordMatches.
  unfold wordsAsTyped.
  pose proof (useWordMatches_test term wordMatches) as Htest.
  destruct ((0 <? Z.of_nat (List.length wordMatches))
            && ((1 <? Z.of_nat (List.length (qualifyingWords term)))
                || (3 <=? Z.of_nat (List.length wordMatches)))).
  - split; [reflexivity|].
    intros Hn. elim Hn. now apply Htest.
  - split; [intros Hu; apply Htest in Hu; discriminate Hu|].
    intros _.
    now destruct (createFuzzySearch now now' cache enriched courseFuzzyOptions).
Qed.
End Strategy.

(** ** The strategy on terms beyond Latin-1 *)

Lemma wide_eqb_nil (s : Wide.wstring) : Wide.eqb s [] = true <-> s = [].
Proof. destruct s; simpl; split; intros H; try reflexivity; discriminate H. Qed.

Lemma wide_hasSearch_some (s : Wide.wstring) :
  Wide.trim s <> [] -> Wide.hasSearch (Some s) = Some s.
Proof.
  intros H. simpl.
  destruct (Wide.eqb s []) eqn:E1; [apply wide_eqb_nil in E1; subst s; now elim H|].
  destruct (Wide.eqb (Wide.trim s) []) eqn:E2; [apply wide_eqb_nil in E2; contradiction|].
  reflexivity.
Qed.

Lemma wide_noSearchTerm_some (s : Wide.wstring) :
  Wide.trim s <> [] -> Wide.noSearchTerm (Some s) = false.
Proof.
  intros H. simpl.
  destruct (Wide.eqb s []) eqn:E1; [apply wide_eqb_nil in E1; subst s; now elim H|].
  reflexivity.
Qed.

Section WideStrategy.
Variable fuseSearch : forall T : Type, Fuse.t T -> Wide.wstring -> list (Fuse.Result T).

Lemma wide_searchCourses_nonblank (now now' : Z)
    (cache : SearchCache Wide.EnrichedCourse.t)
    (courses : list Wide.Course.t) (options : Wide.CourseSearchOptions)
    (s : Wide.wstring) :
  Wide.searchTerm options = Some s ->
  Wide.trim s <> [] ->
  Wide.searchCourses fuseSearch now now' cache courses options
  = let '(results, cache') :=
      Wide.courseSearchStep fuseSearch now now' cache
        (Wide.enrichCourses courses
           (match Wide.atar options with Some a => a | None => zero end))
        s in
    (afterSearchWide options results, cache').
Proof.
  intros Hs Ht. unfold Wide.searchCourses.
  rewrite Hs, (wide_hasSearch_some s Ht), (wide_noSearchTerm_some s Ht).
  destruct (Wide.courseSearchStep _ _ _ _ _ _) as [r c].
  unfold afterSearchWide. destruct (Wide.limit options) as [l|]; [|reflexivity].
  replace (negb (l =? 0) && (0 <? l)) with (0 <? l); [reflexivity|].
  destruct (Z.ltb_spec 0 l), (Z.eqb_spec l 0); simpl; try reflexivity; lia.
Qed.

End WideStrategy.



(* ====================================================================== *)
(** * The match cache ([clearExpiredCache], [createFuzzySearch])           *)
(* ====================================================================== *)

Lemma SearchKey_eqb_refl (k : SearchKey) : SearchKey_eqb k k = true.
Proof.
  destruct k as [n|n w]; simpl; rewrite String.eqb_refl; [reflexivity|].
  now apply Leibniz.eqb_spec.
Qed.

Lemma list_eqb_refl (A : Type) (eqb : A -> A -> bool) (l : list A) :
  (forall a, eqb a a = true) -> list_eqb eqb l l = true.
Proof. intros H. induction l as [|a l IH]; simpl; [reflexivity | now rewrite H]. Qed.

Lemma option_eqb_refl (A : Type) (eqb : A -> A -> bool) (o : option A) :
  (forall a, eqb a a = true) -> option_eqb eqb o o = true.
Proof. intros H. destruct o; simpl; [apply H | reflexivity]. Qed.

Lemma SearchOptions_eqb_refl (o : SearchOptions.t) : SearchOptions_eqb o o = true.
Proof.
  unfold SearchOptions_eqb.
  rewrite (list_eqb_refl _ _ SearchKey_eqb_refl).
  rewrite !(option_eqb_refl _ _ Z.eqb_refl).
  rewrite !(option_eqb_refl _ _ Bool.eqb_reflx).
  rewrite (option_eqb_refl Leibniz.eqb); [reflexivity|].
  intros a. now apply Leibniz.eqb_spec.
Qed.

Lemma CacheKey_eqb_refl (k : CacheKey) : CacheKey_eqb k k = true.
Proof. unfold CacheKey_eqb. now rewrite Z.eqb_refl, SearchOptions_eqb_refl. Qed.

Section CacheFacts.
Variable T : Type.
Implicit Types (cache : SearchCache T) (key : CacheKey) (e : CachedSearch T).

(** The sweep keeps exactly the entries that are at most [CACHE_TTL] old. *)
Lemma clearExpiredCache_In (now : Z) cache key e :
  In (key, e) (clearExpiredCache now cache)
  <-> In (key, e) cache /\ now - timestamp e <= CACHE_TTL.
Proof.
  unfold clearExpiredCache. rewrite filter_In. simpl.
  rewrite negb_true_iff, Z.ltb_ge. reflexivity.
Qed.

Lemma cacheGet_In cache key e :
  cacheGet cache key = Some e ->
  exists k, In (k, e) cache /\ CacheKey_eqb k key = true.
Proof.
  induction cache as [|[k v] rest IH]; simpl; [discriminate|].
  destruct (CacheKey_eqb k key) eqn:E.
  - intros [= ->]. exists k. auto.
  - intros H. destruct (IH H) as [k' [Hin Hk]]. exists k'. auto.
Qed.

Lemma cacheGet_cacheSet cache key e :
  cacheGet (cacheSet cache key e) key = Some e.
Proof.
  induction cache as [|[k v] rest IH]; simpl.
  - now rewrite CacheKey_eqb_refl.
  - destruct (CacheKey_eqb k key) eqn:E; simpl; now rewrite E.
Qed.

(** C7, as the code has it: every access first sweeps out the entries
    older than five minutes, and only then looks the key up; an index
    is handed out from the cache only while [now - timestamp <= 5 min]
    (an entry exactly five minutes old is still reused), so an index
    older than five minutes is never returned. *)
Theorem createFuzzySearch_reuses_within_TTL (now now' : Z) cache
    (data : list T) (options : SearchOptions.t) :
  let swept := clearExpiredCache now cache in
  let key := getCacheKey data options in
  (forall k e, In (k, e) swept <-> In (k, e) cache /\ now - timestamp e <= 5 * 60 * 1000) /\
  match cacheGet swept key with
  | Some cached =>
      createFuzzySearch now now' cache data options = (fuse cached, swept) /\
      (exists k, In (k, cached) cache /\ CacheKey_eqb k key = true) /\
      now - timestamp cached <= 5 * 60 * 1000
  | None =>
      let fresh := Fuse.New data (mergeOptions DEFAULT_SEARCH_OPTIONS options) in
      createFuzzySearch now now' cache data options
      = (fresh, cacheSet swept key {| fuse := fresh; timestamp := now' |})
  end.
Proof.
  intros swept key. split; [intros k e; apply clearExpiredCache_In|].
  unfold createFuzzySearch. fold swept. fold key.
  destruct (cacheGet swept key) as [cached|] eqn:E; [|reflexivity].
  split; [reflexivity|].
  destruct (cacheGet_In _ _ E) as [k [Hin Hk]].
  apply clearExpiredCache_In in Hin. destruct Hin as [Hin Hage].
  split; [exists k; auto | exact Hage].
Qed.

Lemma clearExpiredCache_idem (now : Z) cache :
  clearExpiredCache now (clearExpiredCache now cache) = clearExpiredCache now cache.
Proof.
  unfold clearExpiredCache. induction cache as [|[k v] rest IH]; simpl; [reflexivity|].
  destruct (negb (CACHE_TTL <? now - timestamp v)) eqn:E; simpl; [|exact IH].
  now rewrite E, IH.
Qed.

Lemma cacheSet_absent cache key e :
  cacheGet cache key = None -> cacheSet cache key e = (cache ++ [(key, e)])%list.
Proof.
  induction cache as [|[k v] rest IH]; simpl; [reflexivity|].
  destruct (CacheKey_eqb k key); [discriminate|]. intros H. now rewrite IH.
Qed.

Lemma clearExpiredCache_cacheSet (now : Z) cache key e :
  cacheGet cache key = None ->
  clearExpiredCache now (cacheSet cache key e)
  = (clearExpiredCache now cache
     ++ if negb (CACHE_TTL <? now - timestamp e) then [(key, e)] else [])%list.
Proof.
  intros H. rewrite cacheSet_absent by exact H.
  unfold clearExpiredCache. now rewrite filter_app.
Qed.

(** A second access with the same data and configuration, made while the
    cache holds still, gets the index of the first and leaves the cache
    as the first left it. *)
Lemma createFuzzySearch_again (now1 now1' now2 now2' : Z) cache
    (data : list T) (options : SearchOptions.t) :
  let first := createFuzzySearch now1 now1' cache data options in
  cacheHolds now1 now1' now2 now2' (snd first) ->
  createFuzzySearch now2 now2' (snd first) data options = first.
Proof.
  intros first. subst first. unfold createFuzzySearch. cbv zeta.
  destruct (cacheGet (clearExpiredCache now1 cache) (getCacheKey data options))
    as [cached|] eqn:E; simpl; intros [[-> ->] | Hfix].
  - now rewrite clearExpiredCache_idem, E.
  - now rewrite Hfix, E.
  - rewrite clearExpiredCache_cacheSet by exact E. rewrite clearExpiredCache_idem.
    simpl. destruct (negb (CACHE_TTL <? now1 - now1')).
    + rewrite <- cacheSet_absent by exact E. now rewrite cacheGet_cacheSet.
    + now rewrite app_nil_r, E.
  - now rewrite Hfix, cacheGet_cacheSet.
Qed.
End CacheFacts.

(** The claim as first stated fails at the boundary: an entry stored at
    time [0] is handed out again at time [300000], exactly five minutes
    later, although [now - timestamp < 5 min] no longer holds.  The index
    returned is the cached one for ["Physics"], not a fresh one for
    ["Biology"]. *)
Lemma createFuzzySearch_reuses_at_exactly_TTL :
  let old := Fuse.New ["Physics"] (mergeOptions DEFAULT_SEARCH_OPTIONS DEFAULT_SEARCH_OPTIONS) in
  let cache := [(getCacheKey ["Physics"] DEFAULT_SEARCH_OPTIONS,
                 {| fuse := old; timestamp := 0 |})] in
  createFuzzySearch 300000 300001 cache ["Biology"] DEFAULT_SEARCH_OPTIONS = (old, cache)
  /\ ~ (300000 - 0 < 5 * 60 * 1000).
Proof. split; [vm_compute; reflexivity | lia]. Qed.

(* ====================================================================== *)
(** * Fuzzy and hybrid search ([fuzzySearch], [hybridSearch])             *)
(* ====================================================================== *)

Section FuzzyFacts.
Variable fuseSearch : forall T : Type, Fuse.t T -> string -> list (Fuse.Result T).
Variable T : Type.

Lemma blank_test (query : string) :
  String.eqb query "" || (JS.length (JS.trim query) =? 0) = JS.allWhite query.
Proof.
  rewrite JSFacts.length_zero_iff.
  destruct (JS.allWhite query) eqn:E.
  - apply JSFacts.trim_empty_iff in E. rewrite E. apply orb_true_r.
  - destruct (String.eqb_spec query "") as [->|_]; [discriminate E|].
    destruct (String.eqb_spec (JS.trim query) "") as [H|_]; [|reflexivity].
    apply JSFacts.trim_empty_iff in H. congruence.
Qed.

(** C5: a query that is empty or white space only returns the whole
    collection, as it is, and leaves the cache alone; a query whose
    trimmed text is not empty but shorter than [minMatchCharLength]
    returns the empty sequence. *)
Theorem fuzzySearch_blank_and_short (now now' : Z) (cache : SearchCache T)
    (data : list T) (query : string) (options : SearchOptions.t) :
  (query = "" \/ JS.allWhite query = true ->
     fuzzySearch fuseSearch now now' cache data query options = (data, cache)) /\
  (forall n,
     JS.trim query <> "" ->
     SearchOptions.minMatchCharLength options = Some n ->
     JS.length (JS.trim query) < n ->
     fuzzySearch fuseSearch now now' cache data query options = ([], cache)).
Proof.
  unfold fuzzySearch. rewrite blank_test. split.
  - intros [-> | ->]; reflexivity.
  - intros n Ht Hn Hlen.
    destruct (JS.allWhite query) eqn:E;
      [apply JSFacts.trim_empty_iff in E; contradiction|].
    unfold minLength. rewrite Hn.
    pose proof (JSFacts.length_nonneg (JS.trim query)).
    destruct (Z.eqb_spec n 0); [lia|].
    destruct (Z.ltb_spec (JS.length (JS.trim query)) n); [reflexivity | lia].
Qed.

Variable getField : T -> string -> JsValue.
Variable sameItem : T -> T -> bool.

(** For a query that is not empty the loop over the keys computes the
    exact-match test. *)
Lemma exactKeyLoop_isExactMatch (q : string) (item : T) (exactKeys : list string) :
  q <> "" ->
  exactKeyLoop getField q item exactKeys = isExactMatch getField q exactKeys item.
Proof.
  intros Hq. unfold isExactMatch.
  induction exactKeys as [|key rest IH]; simpl; [reflexivity|].
  destruct (getField item key) as [|value|x|]; try exact IH.
  destruct (String.eqb_spec value "") as [->|Hv]; simpl.
  - destruct q as [|a q']; [congruence | exact IH].
  - destruct (String.eqb (JS.toLowerCase value) q); [reflexivity|].
    destruct (JS.startsWith (JS.toLowerCase value) q); [reflexivity | exact IH].
Qed.

Lemma isExactMatch_spec (q : string) (item : T) (exactKeys : list string) :
  isExactMatch getField q exactKeys item = true <->
  exists key value,
    In key exactKeys /\ getField item key = JsString value /\
    (JS.toLowerCase value = q \/ JS.startsWith (JS.toLowerCase value) q = true).
Proof.
  unfold isExactMatch. rewrite existsb_exists. split.
  - intros [key [Hin H]]. destruct (getField item key) as [|value|x|] eqn:E;
      try discriminate H.
    exists key, value. repeat split; auto.
    apply orb_true_iff in H. destruct H as [H|H]; [left | right; exact H].
    now apply String.eqb_eq.
  - intros [key [value [Hin [E H]]]]. exists key. split; [exact Hin|].
    rewrite E. apply orb_true_iff.
    destruct H as [H|H]; [left; now apply String.eqb_eq | right; exact H].
Qed.

(** The partition loop extends the two arrays by the two filters. *)
Lemma partitionLoop_filter (q : string) (exactKeys : list string) (data : list T)
    (exactMatches fuzzyMatches : list T) :
  q <> "" ->
  partitionLoop getField q exactKeys data exactMatches fuzzyMatches
  = (exactMatches ++ filter (isExactMatch getField q exactKeys) data,
     fuzzyMatches ++ filter (fun item => negb (isExactMatch getField q exactKeys item)) data)%list.
Proof.
  intros Hq. revert exactMatches fuzzyMatches.
  induction data as [|item rest IH]; intros ex fz; simpl.
  - now rewrite !app_nil_r.
  - rewrite (exactKeyLoop_isExactMatch item exactKeys Hq).
    destruct (isExactMatch getField q exactKeys item); simpl;
      rewrite IH, <- app_assoc; reflexivity.
Qed.

(** C4: for a query that is not blank, with [q] its trimmed lower-cased
    text: an item is an exact match iff some key of [exactKeys] holds a
    string that lower-cased equals [q] or starts with [q]; every item
    goes, once and in input order, to the exact matches or to the fuzzy
    bucket; with no exact match the result is the fuzzy search of the
    whole data; otherwise it is the exact matches followed by the fuzzy
    results over the bucket without the items identical to an exact
    match. *)
Theorem hybridSearch_exact_then_fuzzy (now now' : Z) (cache : SearchCache T)
    (data : list T) (query : string) (options : SearchOptions.t)
    (exactKeys : list string) :
  let q := JS.toLowerCase (JS.trim query) in
  let exact := filter (isExactMatch getField q exactKeys) data in
  let bucket := filter (fun item => negb (isExactMatch getField q exactKeys item)) data in
  JS.trim query <> "" ->
  (forall item,
     isExactMatch getField q exactKeys item = true <->
     exists key value,
       In key exactKeys /\ getField item key = JsString value /\
       (JS.toLowerCase value = q \/ JS.startsWith (JS.toLowerCase value) q = true)) /\
  (exact = [] ->
     hybridSearch fuseSearch getField sameItem now now' cache data query options exactKeys
     = fuzzySearch fuseSearch now now' cache data query options) /\
  (exact <> [] ->
     hybridSearch fuseSearch getField sameItem now now' cache data query options exactKeys
     = let '(found, cache') := fuzzySearch fuseSearch now now' cache bucket query options in
       ((exact ++ filter (fun item => negb (existsb (sameItem item) exact)) found)%list,
        cache')).
Proof.
  intros q exact bucket Ht.
  split; [intros item; apply isExactMatch_spec|].
  assert (Hq : q <> "") by (unfold q; now rewrite JSFacts.toLowerCase_empty_iff).
  unfold hybridSearch. rewrite blank_test.
  destruct (JS.allWhite query) eqn:E;
    [apply JSFacts.trim_empty_iff in E; contradiction|].
  fold q. rewrite (partitionLoop_filter exactKeys data [] [] Hq). simpl.
  fold exact. fold bucket.
  destruct exact as [|x xs]; split; intros H; try congruence; reflexivity.
Qed.
End FuzzyFacts.

(* ====================================================================== *)
(** * Subject search ([searchSubjects])                                    *)
(* ====================================================================== *)

Lemma fold_left_bonus (A : Type) (applies : A -> bool) (points : Z) (l : list A) (acc : Z) :
  fold_left (fun p x => if applies x then p + points else p) l acc
  = acc + sumZ (map (fun x => bonus (applies x) points) l).
Proof.
  revert acc; induction l as [|x l IH]; intros acc; simpl; [lia|].
  rewrite IH. unfold bonus, sumZ. destruct (applies x); lia.
Qed.

Lemma subjectPriority_sum (q : string) (aliasTargets : list string) (s : EnrichedSubject.t) :
  subjectPriority q aliasTargets s = priorityOf q aliasTargets s.
Proof.
  unfold subjectPriority, priorityOf, prioritySum. cbv zeta.
  rewrite !fold_left_bonus. unfold bonus.
  repeat match goal with |- context [if ?b then _ else _] => destruct b end; lia.
Qed.

Section SubjectFacts.
Variable fuseSearch : forall T : Type, Fuse.t T -> string -> list (Fuse.Result T).

Lemma fuzzyTierOf_In (now now' : Z) (cache : SearchCache EnrichedSubject.t)
    (zero : list EnrichedSubject.t) (q : string) (s : EnrichedSubject.t) :
  In s (fuzzyTierOf fuseSearch now now' cache zero q) ->
  exists r,
    In r (fuseSearch (fst (createFuzzySearch now now' cache zero subjectFuzzyOptions)) q)
    /\ Fuse.item r = s.
Proof.
  unfold fuzzyTierOf. destruct zero as [|z zs]; [contradiction|].
  intros Hs. apply in_map_iff in Hs. destruct Hs as [[s' sc] [Heq Hin]].
  simpl in Heq. subst s'.
  apply (Permutation_in _ (sort_perm _ _)) in Hin.
  apply in_map_iff in Hin. destruct Hin as [r [Heq Hin]].
  exists r. split; [exact Hin | now inversion Heq].
Qed.

(** For a query that is not blank, the result is the exact tier, sorted
    by descending priority, followed by the fuzzy tier, cut at the limit. *)
Lemma searchSubjects_nonblank (now now' : Z) (cache : SearchCache EnrichedSubject.t)
    (subjects : list Subject.t) (options : SubjectSearchOptions) :
  let limit := match subjectLimit options with Some l => l | None => 50 end in
  let q := JS.toLowerCase (JS.trim (query options)) in
  let aliasTargets := snd (normaliseSubjectQuery (query options) (aliases options)) in
  let enriched := map enrichSubject subjects in
  JS.trim (query options) <> "" ->
  fst (searchSubjects fuseSearch now now' cache subjects options)
  = JS.slice0
      (JS.sort (JS.descending (priorityOf q aliasTargets))
         (filter (fun s => 0 <? priorityOf q aliasTargets s) enriched)
       ++ fuzzyTierOf fuseSearch now now' cache
            (filter (fun s => priorityOf q aliasTargets s =? 0) enriched) q)%list
      limit.
Proof.
  intros limit q aliasTargets enriched Ht.
  unfold searchSubjects. rewrite blank_test.
  destruct (JS.allWhite (query options)) eqn:E;
    [apply JSFacts.trim_empty_iff in E; contradiction|].
  rewrite (surjective_pairing (normaliseSubjectQuery _ _)).
  fold aliasTargets.
  change (fst (normaliseSubjectQuery (query options) (aliases options))) with q.
  cbv zeta. fold enriched. fold limit.
  set (scored := map (fun s => (s, subjectPriority q aliasTargets s)) enriched).
  set (decorate := fun s : EnrichedSubject.t => (s, priorityOf q aliasTargets s)).
  assert (Hs : scored = map decorate enriched).
  { subst scored decorate. apply map_ext. intros s. f_equal.
    apply subjectPriority_sum. }
  rewrite Hs, !filter_decorated. simpl.
  rewrite (sort_map decorate (JS.descending (priorityOf q aliasTargets)))
    by reflexivity.
  rewrite !map_map. simpl. rewrite !map_id.
  unfold fuzzyTierOf.
  destruct (filter (fun s => priorityOf q aliasTargets s =? 0) enriched)
    as [|z zs]; [reflexivity|].
  simpl List.length.
  replace (0 <? Z.of_nat (S (List.length zs))) with true
    by (symmetry; apply Z.ltb_lt; lia).
  destruct (createFuzzySearch now now' cache (z :: zs) subjectFuzzyOptions)
    as [index cache']. reflexivity.
Qed.

(** What does hold of the two tiers.  For a query that is not blank, the
    priority of a subject is the sum of every bonus that applies (+100
    and +50 per alias target, +80, +40, +70, +30 for the query itself);
    the returned list is the exact tier (all subjects of priority above
    0, in descending order of priority, equal priorities in input order)
    followed by the fuzzy tier, cut at the limit; and when the index
    answers with subjects of the zero-priority set it was asked to
    search, every subject of the fuzzy tier has priority 0, so that each
    subject of positive priority precedes each subject of priority 0. *)
Theorem searchSubjects_exact_tier_first (now now' : Z)
    (cache : SearchCache EnrichedSubject.t)
    (subjects : list Subject.t) (options : SubjectSearchOptions) :
  let limit := match subjectLimit options with Some l => l | None => 50 end in
  let q := JS.toLowerCase (JS.trim (query options)) in
  let aliasTargets := snd (normaliseSubjectQuery (query options) (aliases options)) in
  let priority := priorityOf q aliasTargets in
  let enriched := map enrichSubject subjects in
  let zero := filter (fun s => priority s =? 0) enriched in
  JS.trim (query options) <> "" ->
  (forall s, subjectPriority q aliasTargets s = priority s) /\
  exists exactTier fuzzyTier,
    fst (searchSubjects fuseSearch now now' cache subjects options)
    = JS.slice0 (exactTier ++ fuzzyTier)%list limit /\
    Permutation exactTier (filter (fun s => 0 <? priority s) enriched) /\
    Forall (fun s => 0 < priority s) exactTier /\
    StronglySorted (fun a b => priority b <= priority a) exactTier /\
    (forall k, filter (fun s => priority s =? k) exactTier
               = filter (fun s => priority s =? k)
                        (filter (fun s => 0 <? priority s) enriched)) /\
    fuzzyTier = fuzzyTierOf fuseSearch now now' cache zero q /\
    ((forall r,
        In r (fuseSearch (fst (createFuzzySearch now now' cache zero subjectFuzzyOptions)) q) ->
        In (Fuse.item r) zero) ->
     Forall (fun s => priority s = 0) fuzzyTier).
Proof.
  intros limit q aliasTargets priority enriched zero Ht.
  split; [intros s; apply subjectPriority_sum|].
  exists (JS.sort (JS.descending priority) (filter (fun s => 0 <? priority s) enriched)).
  exists (fuzzyTierOf fuseSearch now now' cache zero q).
  assert (P := sort_perm (JS.descending priority)
                 (filter (fun s => 0 <? priority s) enriched)).
  split; [apply (searchSubjects_nonblank now now' cache subjects options Ht)|].
  split; [exact P|]. split; [|split; [apply sort_descending|split; [|split]]].
  - eapply Permutation_Forall; [symmetry; exact P|].
    apply Forall_forall. intros s Hs. apply filter_In in Hs.
    now apply Z.ltb_lt.
  - intros k. apply sort_stable.
  - reflexivity.
  - intros Hsound. apply Forall_forall. intros s Hs.
    apply fuzzyTierOf_In in Hs. destruct Hs as [r [Hin <-]].
    apply Hsound in Hin. apply filter_In in Hin. now apply Z.eqb_eq.
Qed.
End SubjectFacts.

(** C6: the exact tier is not always followed by subjects of priority 0
    only.  After a search for "chem" over three subjects, the cache holds
    the index of the two subjects that had priority 0 then, "Specialist
    Mathematics" and "Mathematical Methods".  A search for "math" over
    the same list a second later gives "Mathematical Methods" priority
    40 and leaves two other subjects at priority 0: the key of their
    list is the key of the cached index, which is searched in their
    place, whatever [fuse.search] answers.  When it answers with both
    its records, "Mathematical Methods" is returned a second time, after
    "Specialist Mathematics" of priority 0, and "Chemistry" is not
    searched at all. *)
Theorem searchSubjects_fuzzy_tier_from_stale_index :
  (forall fuseSearch : forall T : Type, Fuse.t T -> string -> list (Fuse.Result T),
     let subjects := [specialist; methods; chemistry] in
     let first := searchSubjects fuseSearch 0 0 [] subjects (subjectQuery "chem") in
     let stale :=
       Fuse.New [enrichSubject specialist; enrichSubject methods]
                (mergeOptions DEFAULT_SEARCH_OPTIONS subjectFuzzyOptions) in
     fst (searchSubjects fuseSearch 1000 1000 (snd first) subjects (subjectQuery "math"))
     = JS.slice0
         (enrichSubject methods ::
          map fst
            (JS.sort (fun a b => JS.positive (scoreOr1 (snd a) - scoreOr1 (snd b))%float)
               (map (fun r => (Fuse.item r, Fuse.score r)) (fuseSearch _ stale "math"))))
         50) /\
  let subjects := [specialist; methods; chemistry] in
  let first := searchSubjects matchEverything 0 0 [] subjects (subjectQuery "chem") in
  map (fun s => (Subject.name (EnrichedSubject.subject s), subjectPriority "math" [] s))
      (fst (searchSubjects matchEverything 1000 1000 (snd first) subjects
              (subjectQuery "math")))
  = [("Mathematical Methods", 40); ("Specialist Mathematics", 0);
     ("Mathematical Methods", 40)].
Proof.
  split; [intros fuseSearch|]; vm_compute; reflexivity.
Qed.

(* ====================================================================== *)
(** * Running a ranking call twice                                         *)
(* ====================================================================== *)

Section Twice.
Variable fuseSearch : forall T : Type, Fuse.t T -> string -> list (Fuse.Result T).
Variables now1 now1' now2 now2' : Z.

Lemma courseSearchStep_again (cache : SearchCache EnrichedCourse.t)
    (enriched : list EnrichedCourse.t) (s : string) :
  let first := courseSearchStep fuseSearch now1 now1' cache enriched s in
  cacheHolds now1 now1' now2 now2' (snd first) ->
  courseSearchStep fuseSearch now2 now2' (snd first) enriched s = first.
Proof.
  unfold courseSearchStep.
  destruct ((0 <? Z.of_nat (List.length (wordBasedSearch enriched (JS.trim s))))
            && _); [reflexivity|].
  pose proof (@createFuzzySearch_again _ now1 now1' now2 now2' cache enriched
                courseFuzzyOptions) as Hagain.
  destruct (createFuzzySearch now1 now1' cache enriched courseFuzzyOptions)
    as [index cache1]. simpl in *.
  intros Hfix. now rewrite (Hagain Hfix).
Qed.

Lemma searchCourses_again (cache : SearchCache EnrichedCourse.t)
    (courses : list Course.t) (options : CourseSearchOptions) :
  let first := searchCourses fuseSearch now1 now1' cache courses options in
  cacheHolds now1 now1' now2 now2' (snd first) ->
  searchCourses fuseSearch now2 now2' (snd first) courses options = first.
Proof.
  unfold searchCourses.
  destruct (hasSearch (searchTerm options)) as [s|]; [|reflexivity].
  pose proof (courseSearchStep_again cache
                (enrichCourses courses
                   (match atar options with Some a => a | None => zero end)) s)
    as Hagain.
  destruct (courseSearchStep fuseSearch now1 now1' cache _ s) as [results cache1].
  simpl in *. intros Hfix. now rewrite (Hagain Hfix).
Qed.

Lemma searchSubjects_again (cache : SearchCache EnrichedSubject.t)
    (subjects : list Subject.t) (options : SubjectSearchOptions) :
  let first := searchSubjects fuseSearch now1 now1' cache subjects options in
  cacheHolds now1 now1' now2 now2' (snd first) ->
  searchSubjects fuseSearch now2 now2' (snd first) subjects options = first.
Proof.
  unfold searchSubjects.
  destruct (String.eqb (query options) "" || _); [reflexivity|].
  destruct (normaliseSubjectQuery (query options) (aliases options))
    as [q aliasTargets].
  set (scored := map (fun subject => (subject, subjectPriority q aliasTargets subject))
                     (map enrichSubject subjects)).
  destruct (0 <? Z.of_nat (List.length (filter (fun s => snd s =? 0) scored)));
    [|reflexivity].
  pose proof (@createFuzzySearch_again _ now1 now1' now2 now2' cache
                (map fst (filter (fun s => snd s =? 0) scored))
                subjectFuzzyOptions) as Hagain.
  destruct (createFuzzySearch now1 now1' cache _ subjectFuzzyOptions)
    as [index cache1]. simpl in *.
  intros Hfix. now rewrite (Hagain Hfix).
Qed.

(** C9: the same ranking call, made a second time with the same inputs
    on the cache the first call left, while that cache holds still (the
    clock reads the same, or nothing in the cache expires before the
    second call sweeps), returns the same list in the same order, and
    leaves the cache as it was. *)
Theorem ranking_twice_identical :
  (forall (cache : SearchCache EnrichedCourse.t) (courses : list Course.t)
          (options : CourseSearchOptions),
     let first := searchCourses fuseSearch now1 now1' cache courses options in
     cacheHolds now1 now1' now2 now2' (snd first) ->
     searchCourses fuseSearch now2 now2' (snd first) courses options = first) /\
  (forall (cache : SearchCache EnrichedSubject.t) (subjects : list Subject.t)
          (options : SubjectSearchOptions),
     let first := searchSubjects fuseSearch now1 now1' cache subjects options in
     cacheHolds now1 now1' now2 now2' (snd first) ->
     searchSubjects fuseSearch now2 now2' (snd first) subjects options = first).
Proof. split; [exact searchCourses_again | exact searchSubjects_again]. Qed.
End Twice.

(** In particular, two calls that read the same clock (back to back
    within one millisecond) agree, whatever the cache held before. *)
Corollary searchCourses_twice_same_instant
    (fuseSearch : forall T : Type, Fuse.t T -> string -> list (Fuse.Result T))
    (now now' : Z) (cache : SearchCache EnrichedCourse.t)
    (courses : list Course.t) (options : CourseSearchOptions) :
  let first := searchCourses fuseSearch now now' cache courses options in
  searchCourses fuseSearch now now' (snd first) courses options = first.
Proof. intros first. apply searchCourses_again. now left. Qed.

Corollary searchSubjects_twice_same_instant
    (fuseSearch : forall T : Type, Fuse.t T -> string -> list (Fuse.Result T))
    (now now' : Z) (cache : SearchCache EnrichedSubject.t)
    (subjects : list Subject.t) (options : SubjectSearchOptions) :
  let first := searchSubjects fuseSearch now now' cache subjects options in
  searchSubjects fuseSearch now now' (snd first) subjects options = first.
Proof. intros first. apply searchSubjects_again. now left. Qed.

(* ====================================================================== *)
(** * Student search ([studentMatchesQuery], [sortStudents])               *)
(* ====================================================================== *)

(** C10: the empty query matches every student. *)
Theorem studentMatchesQuery_empty_query (student : Student.t) :
  studentMatchesQuery student "" = true.
Proof.
  unfold studentMatchesQuery. simpl JS.toLowerCase at 3.
  now rewrite JSFacts.includes_empty.
Qed.

(** C8: two students whose year counts as [0], one without a year and one
    with the year [0].  The comparator finds the years different, returns
    the difference [0 - 0], and never compares the names: the two keep
    their input order, whichever way the names compare. *)
Theorem sortStudents_missing_year_and_year_zero (localeCompare : string -> string -> Z) :
  let bob := {| Student.name := "Bob"; Student.school := "Northside High";
                Student.subjects := []; Student.year := None |} in
  let alice := {| Student.name := "Alice"; Student.school := "Northside High";
                  Student.subjects := []; Student.year := Some 0 |} in
  yearOr0 (Student.year bob) = yearOr0 (Student.year alice) /\
  compareStudents localeCompare bob alice = 0 /\
  compareStudents localeCompare alice bob = 0 /\
  sortStudents localeCompare [bob; alice] = [bob; alice] /\
  sortStudents localeCompare [alice; bob] = [alice; bob].
Proof. repeat split. Qed.

(* ====================================================================== *)
(** * The statements at concrete inputs                                    *)
(* ====================================================================== *)

Lemma searchCourses_strategy_witness :
  JS.trim " monash medicine " <> "" /\
  searchCourses matchEverything 0 0 [] exampleCourses
    (exampleCourseOptions " monash medicine ")
  = (afterSearch (exampleCourseOptions " monash medicine ")
       (wordBasedSearch (enrichCourses exampleCourses 90) "monash medicine"), []).
Proof.
  assert (Ht : JS.trim " monash medicine " <> "") by (vm_compute; discriminate).
  split; [exact Ht|].
  destruct (searchCourses_strategy matchEverything 0 0 [] exampleCourses
              (exampleCourseOptions " monash medicine ") eq_refl Ht)
    as [_ [Huse _]].
  apply Huse. split; [vm_compute; discriminate|].
  left. vm_compute. apply le_n.
Defined.

Example searchCourses_monash_medicine :
  map (fun c => (Course.name (EnrichedCourse.course c), EnrichedCourse.category c))
      (fst (searchCourses matchEverything 0 0 [] exampleCourses
              (exampleCourseOptions "monash medicine")))
  = [("Medicine", reach); ("Bachelor of Medicine", target)].
Proof. vm_compute. reflexivity. Qed.

Lemma hybridSearch_witness :
  JS.trim " PHYS " <> "" /\
  fst (hybridSearch matchEverything exampleField Nat.eqb 0 0 []
         [0; 1; 2]%nat " PHYS " DEFAULT_SEARCH_OPTIONS ["code"; "name"])
  = [0; 2; 1]%nat.
Proof.
  assert (Ht : JS.trim " PHYS " <> "") by (vm_compute; discriminate).
  split; [exact Ht|].
  destruct (hybridSearch_exact_then_fuzzy matchEverything exampleField Nat.eqb 0 0 []
              [0; 1; 2]%nat " PHYS " DEFAULT_SEARCH_OPTIONS ["code"; "name"] Ht)
    as [_ [_ Hsome]].
  rewrite Hsome; [vm_compute; reflexivity | vm_compute; discriminate].
Defined.

Lemma fuzzySearch_witness :
  fuzzySearch matchEverything 0 0 [] [1; 2; 3] "   " courseFuzzyOptions = ([1; 2; 3], []) /\
  fuzzySearch matchEverything 0 0 [] [1; 2; 3] " a " courseFuzzyOptions = ([], []).
Proof.
  split.
  - apply (fuzzySearch_blank_and_short matchEverything 0 0 [] [1; 2; 3] "   "
             courseFuzzyOptions). right. reflexivity.
  - apply (fuzzySearch_blank_and_short matchEverything 0 0 [] [1; 2; 3] " a "
             courseFuzzyOptions) with (n := 2).
    + vm_compute; discriminate.
    + reflexivity.
    + vm_compute; reflexivity.
Defined.

Lemma searchSubjects_witness :
  JS.trim (query exampleSubjectOptions) <> "" /\
  forall s, subjectPriority "methods" ["Mathematical Methods"] s
            = priorityOf "methods" ["Mathematical Methods"] s.
Proof.
  assert (Ht : JS.trim (query exampleSubjectOptions) <> "") by (vm_compute; discriminate).
  split; [exact Ht|].
  apply (searchSubjects_exact_tier_first matchEverything 0 0 [] exampleSubjects
           exampleSubjectOptions Ht).
Defined.

(** The alias example of the specification: ["Mathematical Methods"] has
    priority 150 and comes before ["General Mathematics"], which has
    priority 0 and is only found by the fuzzy search. *)
Example searchSubjects_methods_alias :
  map (fun s => (Subject.name (EnrichedSubject.subject s),
                 priorityOf "methods" ["Mathematical Methods"] s))
      (fst (searchSubjects matchEverything 0 0 [] exampleSubjects exampleSubjectOptions))
  = [("Mathematical Methods", 150); ("General Mathematics", 0)].
Proof. vm_compute. reflexivity. Qed.

Lemma ranking_twice_witness :
  let first :=
    searchCourses matchEverything 0 0 [] exampleCourses (exampleCourseOptions "arts") in
  cacheHolds 0 0 1000 1000 (snd first) /\
  searchCourses matchEverything 1000 1000 (snd first) exampleCourses
    (exampleCourseOptions "arts") = first.
Proof.
  intros first.
  assert (Hfix : cacheHolds 0 0 1000 1000 (snd first))
    by (right; vm_compute; reflexivity).
  split; [exact Hfix|].
  apply (proj1 (ranking_twice_identical matchEverything 0 0 1000 1000) []
           exampleCourses (exampleCourseOptions "arts") Hfix).
Defined.

(** Why the cache has to hold still between the two calls.  The cache
    holds an index built five minutes ago for another list of the same
    length.  The first call, at [300000], reuses it and answers with that
    list; the second call, one millisecond later, finds it expired,
    builds the index of its own list and answers differently. *)
Example searchSubjects_across_expiry :
  let biology := enrichSubject (Subject.make "BI03" "Biology") in
  let physics := Subject.make "PH03" "Physics" in
  let options := {| query := "chem"; aliases := None; subjectLimit := None |} in
  let old := Fuse.New [biology] (mergeOptions DEFAULT_SEARCH_OPTIONS subjectFuzzyOptions) in
  let cache := [(getCacheKey [biology] subjectFuzzyOptions,
                 {| fuse := old; timestamp := 0 |})] in
  let first := searchSubjects matchEverything 300000 300000 cache [physics] options in
  let second := searchSubjects matchEverything 300001 300001 (snd first) [physics] options in
  fst first = [biology] /\ fst second = [enrichSubject physics].
Proof. split; vm_compute; reflexivity. Qed.

(* ====================================================================== *)
(** * What [sortStudents] does guarantee                                   *)
(* ====================================================================== *)

Section SortByPreorder.
Variable A : Type.
Variable after : A -> A -> bool.
Variable before : A -> A -> Prop.
Variable good : A -> Prop.
Hypothesis before_trans : forall a b c, before a b -> before b c -> before a c.
Hypothesis after_false : forall a b, good a -> good b -> after a b = false -> before a b.
Hypothesis after_true : forall a b, good a -> good b -> after a b = true -> before b a.

Lemma insert_sorted_preorder (x : A) (l : list A) :
  good x -> Forall good l ->
  StronglySorted before l -> StronglySorted before (JS.insert after x l).
Proof.
  intros Hx Hl Hs. induction Hs as [|y l Hs IH Hy]; simpl.
  - repeat constructor.
  - inversion Hl as [|? ? Hgy Hgl]; subst.
    destruct (after x y) eqn:E.
    + constructor; [now apply IH|].
      eapply Permutation_Forall; [symmetry; apply insert_perm|].
      constructor; [now apply after_true | exact Hy].
    + assert (Hxy : before x y) by now apply after_false.
      constructor; [now constructor|].
      constructor; [exact Hxy|].
      eapply Forall_impl; [|exact Hy]. intros z Hz. now apply before_trans with y.
Qed.

Lemma sort_sorted_preorder (l : list A) :
  Forall good l -> StronglySorted before (JS.sort after l).
Proof.
  induction 1 as [|x l Hx Hl IH]; simpl; [constructor|].
  apply insert_sorted_preorder; [exact Hx | | exact IH].
  eapply Permutation_Forall; [symmetry; apply sort_perm | exact Hl].
Qed.
End SortByPreorder.

Section StudentOrder.
Variable localeCompare : string -> string -> Z.
Hypothesis localeCompare_total :
  forall a b, 0 < localeCompare a b -> localeCompare b a <= 0.
Hypothesis localeCompare_trans :
  forall a b c, localeCompare a b <= 0 -> localeCompare b c <= 0 -> localeCompare a c <= 0.

(** When no student carries the year [0] itself, two students count as
    tied exactly when their [year] fields are identical, and the sorted
    list is in the order of the specification. *)
Lemma sortStudents_sorted (students : list Student.t) :
  Forall (fun s => Student.year s <> Some 0) students ->
  Permutation (sortStudents localeCompare students) students /\
  StronglySorted (studentBefore localeCompare) (sortStudents localeCompare students).
Proof.
  intros Hgood. split; [apply sort_perm|].
  unfold sortStudents.
  apply sort_sorted_preorder with (good := fun s => Student.year s <> Some 0);
    [| | |exact Hgood].
  - unfold studentBefore. intros a b c [H1|[H1 L1]] [H2|[H2 L2]];
      try (left; lia).
    right. split; [lia|]. eapply localeCompare_trans; eassumption.
  - intros a b Ha Hb. unfold compareStudents, studentBefore.
    destruct (Student.year a) as [ya|], (Student.year b) as [yb|]; simpl;
      try destruct (Z.eqb_spec yb ya); simpl; intros H; apply Z.ltb_ge in H;
      try (assert (ya <> 0) by congruence); try (assert (yb <> 0) by congruence);
      try subst; try (right; split; [reflexivity | exact H]); left; lia.
  - intros a b Ha Hb. unfold compareStudents, studentBefore.
    destruct (Student.year a) as [ya|], (Student.year b) as [yb|]; simpl;
      try destruct (Z.eqb_spec yb ya); simpl; intros H; apply Z.ltb_lt in H;
      try subst; try (right; split; [reflexivity | now apply localeCompare_total]);
      left; lia.
Qed.
End StudentOrder.

Lemma codeUnitCompare_total (a b : string) :
  0 < codeUnitCompare a b -> codeUnitCompare b a <= 0.
Proof.
  revert b; induction a as [|x a IH]; intros [|y b]; simpl; try lia.
  destruct (Nat.ltb_spec (JS.code x) (JS.code y)), (Nat.ltb_spec (JS.code y) (JS.code x));
    try lia. apply IH.
Qed.

Lemma codeUnitCompare_trans (a b c : string) :
  codeUnitCompare a b <= 0 -> codeUnitCompare b c <= 0 -> codeUnitCompare a c <= 0.
Proof.
  revert b c; induction a as [|x a IH]; intros [|y b] [|z c]; simpl; try lia.
  destruct (Nat.ltb_spec (JS.code x) (JS.code y)), (Nat.ltb_spec (JS.code y) (JS.code x)),
           (Nat.ltb_spec (JS.code y) (JS.code z)), (Nat.ltb_spec (JS.code z) (JS.code y)),
           (Nat.ltb_spec (JS.code x) (JS.code z)), (Nat.ltb_spec (JS.code z) (JS.code x));
    try lia. apply IH.
Qed.

Example sortStudents_by_year_then_name :
  let student n y := {| Student.name := n; Student.school := "Northside High";
                        Student.subjects := []; Student.year := y |} in
  map Student.name
      (sortStudents codeUnitCompare
         [student "Dana" None; student "Bob" (Some 2023); student "Carl" (Some 2024);
          student "Alice" (Some 2023); student "Abe" None])
  = ["Carl"; "Alice"; "Bob"; "Abe"; "Dana"].
Proof. vm_compute. reflexivity. Qed.

(* ====================================================================== *)
(** * Further properties of the match cache                                *)
(* ====================================================================== *)

Lemma option_eqb_eq (A : Type) (eqb : A -> A -> bool) (x y : option A) :
  (forall a b, eqb a b = true -> a = b) -> option_eqb eqb x y = true -> x = y.
Proof.
  intros Heq. destruct x, y; simpl; try discriminate; [|reflexivity].
  intros H. f_equal. now apply Heq.
Qed.

Lemma CacheKey_eqb_length (a b : CacheKey) : CacheKey_eqb a b = true -> fst a = fst b.
Proof.
  unfold CacheKey_eqb. intros H. apply andb_true_iff in H. destruct H as [H _].
  now apply Z.eqb_eq.
Qed.

Section CacheInvariant.
Variable T : Type.
Implicit Types (cache : SearchCache T) (key : CacheKey) (e : CachedSearch T).

(** X2 (store, then look up): after an access the cache holds, under the
    key of the request, the very index the access returned. *)
Theorem createFuzzySearch_stores_index (now now' : Z) cache
    (data : list T) (options : SearchOptions.t) :
  let result := createFuzzySearch now now' cache data options in
  exists e,
    cacheGet (snd result) (getCacheKey data options) = Some e /\
    fuse e = fst result.
Proof.
  unfold createFuzzySearch. cbv zeta.
  destruct (cacheGet (clearExpiredCache now cache) (getCacheKey data options))
    as [cached|] eqn:E; simpl.
  - exists cached. split; [exact E | reflexivity].
  - eexists. split; [apply cacheGet_cacheSet | reflexivity].
Qed.

Lemma wellKeyed_createFuzzySearch (now now' : Z) cache
    (data : list T) (options : SearchOptions.t) :
  wellKeyed cache ->
  wellKeyed (snd (createFuzzySearch now now' cache data options)).
Proof.
  intros Hw. unfold createFuzzySearch. cbv zeta.
  assert (Hs : wellKeyed (clearExpiredCache now cache)).
  { unfold wellKeyed, clearExpiredCache in *. apply Forall_forall.
    intros p Hp. apply filter_In in Hp. destruct Hp as [Hp _].
    now apply (proj1 (Forall_forall _ _) Hw). }
  destruct (cacheGet (clearExpiredCache now cache) (getCacheKey data options))
    as [cached|] eqn:E; simpl; [exact Hs|].
  rewrite cacheSet_absent by exact E.
  apply Forall_app. split; [exact Hs|].
  constructor; [|constructor]. reflexivity.
Qed.

Lemma wellKeyed_runOps (ops : list (CacheOp T)) : wellKeyed (runOps ops).
Proof.
  unfold runOps. assert (H : wellKeyed (@nil (CacheKey * CachedSearch T))) by constructor.
  revert H. generalize (@nil (CacheKey * CachedSearch T)) as cache.
  induction ops as [|op ops IH]; intros cache H; simpl; [exact H|].
  apply IH. destruct op as [now now' data options|]; simpl.
  - now apply wellKeyed_createFuzzySearch.
  - constructor.
Qed.

(** X3 (what aliasing cannot do): whatever sequence of accesses and
    clearings the cache has been through, the index an access returns
    was built from exactly as many records as the data of the request
    has - be it a fresh index or one cached for another collection. *)
Theorem createFuzzySearch_index_has_requested_length (ops : list (CacheOp T))
    (now now' : Z) (data : list T) (options : SearchOptions.t) :
  let index := fst (createFuzzySearch now now' (runOps ops) data options) in
  List.length (Fuse.docs index) = List.length data.
Proof.
  pose proof (wellKeyed_runOps ops) as Hw.
  unfold createFuzzySearch. cbv zeta.
  destruct (cacheGet (clearExpiredCache now (runOps ops)) (getCacheKey data options))
    as [cached|] eqn:E; simpl; [|reflexivity].
  destruct (cacheGet_In _ _ E) as [k [Hin Hk]].
  apply clearExpiredCache_In in Hin. destruct Hin as [Hin _].
  apply CacheKey_eqb_length in Hk. simpl in Hk.
  pose proof (proj1 (Forall_forall _ _) Hw _ Hin) as Hlen.
  unfold keyedBy in Hlen. simpl in Hlen.
  apply Nat2Z.inj. now rewrite <- Hlen, Hk.
Qed.

(** The index comes from the cache whenever the key is there after the
    sweep: the data of the request is then not looked at. *)
Lemma createFuzzySearch_alias (now1 now1' now2 now2' : Z) cache
    (data1 data2 : list T) (options : SearchOptions.t) :
  let first := createFuzzySearch now1 now1' cache data1 options in
  List.length data1 = List.length data2 ->
  clearExpiredCache now2 (snd first) = snd first ->
  createFuzzySearch now2 now2' (snd first) data2 options = first.
Proof.
  intros first Hlen Hfix.
  destruct (createFuzzySearch_stores_index now1 now1' cache data1 options)
    as [e [He Hf]]. fold first in He, Hf.
  unfold createFuzzySearch at 1. cbv zeta. rewrite Hfix.
  replace (getCacheKey data2 options) with (getCacheKey data1 options)
    by (unfold getCacheKey; now rewrite Hlen).
  rewrite He, Hf. now destruct first.
Qed.
End CacheInvariant.

(* ====================================================================== *)
(** * Further properties of fuzzy and hybrid search                        *)
(* ====================================================================== *)

Section FuzzyMore.
Variable fuseSearch : forall T : Type, Fuse.t T -> string -> list (Fuse.Result T).
Variable T : Type.

(** X1: [fuzzySearchWithScores] finds exactly what [fuzzySearch] finds:
    for every query and every cache, its items are the result of
    [fuzzySearch], in the same order, and it leaves the same cache. *)
Theorem fuzzySearchWithScores_items (now now' : Z) (cache : SearchCache T)
    (data : list T) (query : string) (options : SearchOptions.t) :
  map (@ScoredItem.item T)
      (fst (fuzzySearchWithScores fuseSearch now now' cache data query options))
  = fst (fuzzySearch fuseSearch now now' cache data query options) /\
  snd (fuzzySearchWithScores fuseSearch now now' cache data query options)
  = snd (fuzzySearch fuseSearch now now' cache data query options).
Proof.
  unfold fuzzySearchWithScores, fuzzySearch.
  destruct (String.eqb query "" || (JS.length (JS.trim query) =? 0)); simpl.
  - split; [|reflexivity]. rewrite map_map. simpl. apply map_id.
  - destruct (JS.length (JS.trim query) <? minLength options); simpl;
      [split; reflexivity|].
    destruct (createFuzzySearch now now' cache data options) as [index cache'].
    simpl. split; [|reflexivity]. rewrite map_map. reflexivity.
Qed.

(** X4 (the cache is keyed by length, not by content): a fuzzy search
    over one collection, followed - while nothing in the cache expires -
    by the same search over any other collection of the same length,
    returns for the second the results of the first. *)
Theorem fuzzySearch_same_length_same_results (now1 now1' now2 now2' : Z)
    (cache : SearchCache T) (data1 data2 : list T) (query : string)
    (options : SearchOptions.t) :
  let first := fuzzySearch fuseSearch now1 now1' cache data1 query options in
  List.length data1 = List.length data2 ->
  JS.trim query <> "" ->
  minLength options <= JS.length (JS.trim query) ->
  clearExpiredCache now2 (snd first) = snd first ->
  fuzzySearch fuseSearch now2 now2' (snd first) data2 query options = first.
Proof.
  intros first Hlen Ht Hmin. subst first. unfold fuzzySearch.
  rewrite blank_test.
  destruct (JS.allWhite query) eqn:E;
    [apply JSFacts.trim_empty_iff in E; contradiction|].
  destruct (Z.ltb_spec (JS.length (JS.trim query)) (minLength options)); [lia|].
  pose proof (@createFuzzySearch_alias T now1 now1' now2 now2' cache data1 data2 options)
    as Halias.
  destruct (createFuzzySearch now1 now1' cache data1 options) as [index cache1].
  simpl in *. intros Hfix. now rewrite (Halias Hlen Hfix).
Qed.

Variable getField : T -> string -> JsValue.
Variable sameItem : T -> T -> bool.

Lemma partitionLoop_no_keys (q : string) (data exactMatches fuzzyMatches : list T) :
  partitionLoop getField q [] data exactMatches fuzzyMatches
  = (exactMatches, (fuzzyMatches ++ data)%list).
Proof.
  revert fuzzyMatches. induction data as [|item rest IH]; intros fz; simpl.
  - now rewrite app_nil_r.
  - rewrite IH, <- app_assoc. reflexivity.
Qed.

(** X5: called without exact-match keys (the default [exactMatchKeys = []]),
    [hybridSearch] is [fuzzySearch], for every query, blank or not. *)
Theorem hybridSearch_without_keys (now now' : Z) (cache : SearchCache T)
    (data : list T) (query : string) (options : SearchOptions.t) :
  hybridSearch fuseSearch getField sameItem now now' cache data query options []
  = fuzzySearch fuseSearch now now' cache data query options.
Proof.
  unfold hybridSearch.
  destruct (String.eqb query "" || (JS.length (JS.trim query) =? 0)) eqn:E.
  - unfold fuzzySearch. now rewrite E.
  - now rewrite partitionLoop_no_keys.
Qed.
End FuzzyMore.

(* ====================================================================== *)
(** * Further properties of the course search                              *)
(* ====================================================================== *)

Lemma slice0_firstn (A : Type) (l : list A) (k : Z) :
  exists n, JS.slice0 l k = firstn n l /\ (0 <= k -> Z.of_nat n <= k).
Proof.
  unfold JS.slice0. eexists. split; [reflexivity|].
  intros Hk. destruct (Z.ltb_spec k 0); lia.
Qed.

Lemma slice0_length (A : Type) (l : list A) (k : Z) :
  0 <= k -> Z.of_nat (List.length (JS.slice0 l k)) <= k.
Proof.
  intros Hk. destruct (slice0_firstn l k) as [n [-> Hn]].
  rewrite length_firstn. specialize (Hn Hk). lia.
Qed.

Lemma firstn_Forall (A : Type) (P : A -> Prop) (n : nat) (l : list A) :
  Forall P l -> Forall P (firstn n l).
Proof.
  intros H. revert n. induction H as [|x l Hx Hl IH]; intros [|n]; simpl;
    constructor; auto.
Qed.

Lemma slice0_Forall (A : Type) (P : A -> Prop) (l : list A) (k : Z) :
  Forall P l -> Forall P (JS.slice0 l k).
Proof.
  intros H. destruct (slice0_firstn l k) as [n [-> _]]. now apply firstn_Forall.
Qed.

Lemma Category_eqb_eq (a b : Category) : Category_eqb a b = true <-> a = b.
Proof. destruct a, b; simpl; split; intros H; try reflexivity; discriminate H. Qed.

Lemma sort_ext (A : Type) (after1 after2 : A -> A -> bool) (l : list A) :
  (forall a b, after1 a b = after2 a b) -> JS.sort after1 l = JS.sort after2 l.
Proof.
  intros H. induction l as [|x l IH]; simpl; [reflexivity|].
  rewrite IH. generalize (JS.sort after2 l) as s.
  induction s as [|y s IHs]; simpl; [reflexivity|].
  rewrite H. destruct (after2 x y); [now rewrite IHs | reflexivity].
Qed.

Lemma sumZ_Permutation (l1 l2 : list Z) : Permutation l1 l2 -> sumZ l1 = sumZ l2.
Proof. induction 1; simpl; unfold sumZ in *; simpl; lia. Qed.

Lemma forallb_Permutation (A : Type) (p : A -> bool) (l1 l2 : list A) :
  Permutation l1 l2 -> forallb p l1 = forallb p l2.
Proof.
  induction 1; simpl; try congruence.
  - now rewrite !andb_assoc, (andb_comm (p y)).
Qed.

(** The rank sort puts the courses without a known category last. *)
Lemma sort_rankAfter_unknown_last (l : list EnrichedCourse.t) :
  StronglySorted unknownAfter (JS.sort rankAfter l).
Proof.
  apply sort_sorted_preorder with (good := fun _ => True).
  - unfold unknownAfter. auto.
  - intros a b _ _. unfold rankAfter, unknownAfter. intros H Ha. rewrite Ha in H.
    simpl in H. destruct (EnrichedCourse.category b); simpl in H;
      try discriminate H; reflexivity.
  - intros a b _ _. unfold rankAfter, unknownAfter. intros H Hb. rewrite Hb in H.
    simpl in H. destruct (EnrichedCourse.category a); simpl in H;
      try discriminate H; reflexivity.
  - apply Forall_forall. auto.
Qed.

Section CourseMore.
Variable fuseSearch : forall T : Type, Fuse.t T -> string -> list (Fuse.Result T).

(** [searchCourses] as its four stages. *)
Lemma searchCourses_stages (now now' : Z) (cache : SearchCache EnrichedCourse.t)
    (courses : list Course.t) (options : CourseSearchOptions) :
  let enriched :=
    enrichCourses courses (match atar options with Some a => a | None => zero end) in
  let found :=
    match hasSearch (searchTerm options) with
    | Some s => courseSearchStep fuseSearch now now' cache enriched s
    | None => (enriched, cache)
    end in
  searchCourses fuseSearch now now' cache courses options
  = (limitStage options (rankStage options (categoryStage options (fst found))),
     snd found).
Proof.
  intros enriched found. unfold searchCourses. fold enriched. fold found.
  now destruct found.
Qed.

(** X6: without a search term (absent or the empty string) no index is
    consulted and the cache is left alone; the courses that pass the
    category filter are all kept, each once, with every course of unknown
    category after all the others; the limit then cuts that list. *)
Theorem searchCourses_without_term (now now' : Z) (cache : SearchCache EnrichedCourse.t)
    (courses : list Course.t) (options : CourseSearchOptions) :
  let enriched :=
    enrichCourses courses (match atar options with Some a => a | None => zero end) in
  searchTerm options = None \/ searchTerm options = Some "" ->
  exists ranked,
    searchCourses fuseSearch now now' cache courses options
    = (limitStage options ranked, cache) /\
    Permutation ranked (categoryStage options enriched) /\
    StronglySorted unknownAfter ranked.
Proof.
  intros enriched Hterm. rewrite searchCourses_stages. fold enriched.
  assert (Hs : hasSearch (searchTerm options) = None)
    by (destruct Hterm as [-> | ->]; reflexivity).
  assert (Hn : noSearchTerm (searchTerm options) = true)
    by (destruct Hterm as [-> | ->]; reflexivity).
  rewrite Hs. simpl fst. simpl snd. unfold rankStage. rewrite Hn.
  exists (JS.sort rankAfter (categoryStage options enriched)).
  split; [reflexivity|]. split; [apply sort_perm | apply sort_rankAfter_unknown_last].
Qed.

(** X7: a search term of white space only is neither searched for nor
    taken as "no term": the courses come back in their input order,
    unranked, filtered by category and cut at the limit. *)
Theorem searchCourses_blank_term (now now' : Z) (cache : SearchCache EnrichedCourse.t)
    (courses : list Course.t) (options : CourseSearchOptions) (s : string) :
  searchTerm options = Some s ->
  s <> "" ->
  JS.allWhite s = true ->
  searchCourses fuseSearch now now' cache courses options
  = (limitStage options
       (categoryStage options
          (enrichCourses courses (match atar options with Some a => a | None => zero end))),
     cache).
Proof.
  intros Hs Hne Hw. rewrite searchCourses_stages.
  assert (Ht : JS.trim s = "") by now apply JSFacts.trim_empty_iff.
  unfold hasSearch, rankStage, noSearchTerm. rewrite Hs, Ht.
  destruct (String.eqb_spec s "") as [E|_]; [contradiction|]. reflexivity.
Qed.

(** X8: with a category filter, every course returned has that category,
    whichever way the search went (word-based, fuzzy - even through an
    index cached for other courses - or none). *)
Theorem searchCourses_category (now now' : Z) (cache : SearchCache EnrichedCourse.t)
    (courses : list Course.t) (options : CourseSearchOptions) (c : Category) :
  categoryFilter options = Some (only c) ->
  Forall (fun e => EnrichedCourse.category e = c)
         (fst (searchCourses fuseSearch now now' cache courses options)).
Proof.
  intros Hc. rewrite searchCourses_stages. simpl fst.
  set (found := match hasSearch (searchTerm options) with
                | Some s => _ | None => _ end).
  assert (H1 : Forall (fun e => EnrichedCourse.category e = c)
                 (categoryStage options (fst found))).
  { unfold categoryStage. rewrite Hc. apply Forall_forall. intros e He.
    apply filter_In in He. now apply Category_eqb_eq. }
  assert (H2 : Forall (fun e => EnrichedCourse.category e = c)
                 (rankStage options (categoryStage options (fst found)))).
  { unfold rankStage. destruct (noSearchTerm (searchTerm options)); [|exact H1].
    eapply Permutation_Forall; [symmetry; apply sort_perm | exact H1]. }
  unfold limitStage. destruct (limit options) as [n|]; [|exact H2].
  destruct (negb (n =? 0) && (0 <? n)); [now apply slice0_Forall | exact H2].
Qed.

(** X9: a positive limit bounds the number of courses returned; a limit
    that is zero or negative limits nothing. *)
Theorem searchCourses_limit (now now' : Z) (cache : SearchCache EnrichedCourse.t)
    (courses : list Course.t) (options : CourseSearchOptions) (n : Z) :
  limit options = Some n ->
  (0 < n ->
     Z.of_nat (List.length (fst (searchCourses fuseSearch now now' cache courses options)))
     <= n) /\
  (n <= 0 ->
     searchCourses fuseSearch now now' cache courses options
     = searchCourses fuseSearch now now' cache courses
         {| searchTerm := searchTerm options; categoryFilter := categoryFilter options;
            atar := atar options; limit := None |}).
Proof.
  intros Hn. split; intros Hsign.
  - rewrite searchCourses_stages. simpl fst. unfold limitStage. rewrite Hn.
    replace (negb (n =? 0) && (0 <? n)) with true.
    + apply slice0_length. lia.
    + symmetry. apply andb_true_iff. split;
        [apply negb_true_iff; apply Z.eqb_neq; lia | apply Z.ltb_lt; lia].
  - rewrite !searchCourses_stages. simpl. unfold limitStage at 1. rewrite Hn.
    replace (0 <? n) with false by (symmetry; apply Z.ltb_ge; lia).
    rewrite andb_false_r. reflexivity.
Qed.
End CourseMore.

(** X10: the word-based search depends on the term only through its
    lower-cased qualifying words, whatever their order: letter case,
    spacing, one-letter words and the order of the words change nothing. *)
Theorem wordBasedSearch_same_words (courses : list EnrichedCourse.t) (term1 term2 : string) :
  Permutation (qualifyingWords (JS.toLowerCase term1))
              (qualifyingWords (JS.toLowerCase term2)) ->
  wordBasedSearch courses term1 = wordBasedSearch courses term2.
Proof.
  intros P.
  destruct (qualifyingWords (JS.toLowerCase term1)) as [|w1 ws1] eqn:E1.
  - apply Permutation_nil in P.
    now rewrite !wordBasedSearch_no_words.
  - rewrite <- E1 in P.
    assert (H1 : qualifyingWords (JS.toLowerCase term1) <> []) by (rewrite E1; discriminate).
    assert (H2 : qualifyingWords (JS.toLowerCase term2) <> []).
    { intros E2. rewrite E2 in P. apply Permutation_sym, Permutation_nil in P.
      contradiction. }
    rewrite (wordBasedSearch_sort courses term1 H1), (wordBasedSearch_sort courses term2 H2).
    rewrite (filter_ext _ (containsAllWords (qualifyingWords (JS.toLowerCase term2)))).
    + apply sort_ext. intros a b. unfold JS.descending, totalScore.
      rewrite (sumZ_Permutation (Permutation_map _ P)).
      f_equal. f_equal. apply sumZ_Permutation. now apply Permutation_map.
    + intros c. unfold containsAllWords. now apply forallb_Permutation.
Qed.

(* ====================================================================== *)
(** * Further properties of the subject search                             *)
(* ====================================================================== *)

Lemma lowerChar_idem (c : ascii) : JS.lowerChar (JS.lowerChar c) = JS.lowerChar c.
Proof. destruct c as [[] [] [] [] [] [] [] []]; reflexivity. Qed.

Lemma toLowerCase_idem (s : string) :
  JS.toLowerCase (JS.toLowerCase s) = JS.toLowerCase s.
Proof. induction s as [|c s IH]; simpl; [reflexivity | now rewrite lowerChar_idem, IH]. Qed.

(** A prefix of a lower-case string is in lower case. *)
Lemma startsWith_lowerCase (s p r : string) :
  JS.toLowerCase s = s -> JS.startsWith s (p ++ r) = true -> JS.toLowerCase p = p.
Proof.
  revert s. induction p as [|b p IH]; intros s Hs H; simpl in *; [reflexivity|].
  destruct s as [|a s]; [discriminate H|].
  apply andb_true_iff in H. destruct H as [Hab Hrest].
  apply Ascii.eqb_eq in Hab. subst b.
  simpl in Hs. injection Hs as Ha Hs'.
  rewrite Ha. f_equal. now apply IH with s.
Qed.

(** The loop over the aliases gathers, in order, the targets of the
    aliases that match. *)
Lemma normaliseSubjectQuery_targets (query : string) (entries : Aliases) :
  normaliseSubjectQuery query (Some entries)
  = (JS.toLowerCase (JS.trim query),
     List.concat (map snd (filter (aliasMatches (JS.toLowerCase (JS.trim query))) entries))).
Proof.
  unfold normaliseSubjectQuery. f_equal.
  set (q := JS.toLowerCase (JS.trim query)).
  assert (H : forall acc,
    fold_left
      (fun (aliasTargets : list string) (entry : string * list string) =>
         let '(alias, targets) := entry in
         if String.eqb q alias || JS.startsWith q (alias ++ " ")
         then (aliasTargets ++ targets)%list else aliasTargets)
      entries acc
    = (acc ++ List.concat (map snd (filter (aliasMatches q) entries)))%list).
  { induction entries as [|[alias targets] rest IH]; intros acc; simpl.
    - now rewrite app_nil_r.
    - rewrite IH. unfold aliasMatches at 2. simpl.
      destruct (String.eqb q alias || JS.startsWith q (alias ++ " ")); simpl;
        [now rewrite app_assoc | reflexivity]. }
  apply (H []).
Qed.

(** X11: the aliases are compared with the lower-cased query as they are
    written: an alias whose key contains a capital letter never matches,
    whatever the query, so the alias table could as well be without it. *)
Theorem normaliseSubjectQuery_ignores_capitalised_keys (query : string) (entries : Aliases) :
  normaliseSubjectQuery query (Some entries)
  = normaliseSubjectQuery query (Some (filter lowerCaseKey entries)).
Proof.
  rewrite !normaliseSubjectQuery_targets. f_equal. f_equal. f_equal.
  set (q := JS.toLowerCase (JS.trim query)).
  assert (Hq : JS.toLowerCase q = q) by apply toLowerCase_idem.
  induction entries as [|[alias targets] rest IH]; simpl; [reflexivity|].
  unfold lowerCaseKey at 1, aliasMatches at 1. simpl.
  destruct (String.eqb q alias || JS.startsWith q (alias ++ " ")) eqn:E.
  - assert (Ha : JS.toLowerCase alias = alias).
    { apply orb_true_iff in E. destruct E as [E|E].
      - apply String.eqb_eq in E. now subst alias.
      - now apply startsWith_lowerCase with q " ". }
    rewrite Ha, String.eqb_refl. simpl. unfold aliasMatches at 2. simpl.
    rewrite E. now rewrite IH.
  - destruct (String.eqb (JS.toLowerCase alias) alias); simpl; [|exact IH].
    unfold aliasMatches at 2. simpl. rewrite E. exact IH.
Qed.

Section SubjectMore.
Variable fuseSearch : forall T : Type, Fuse.t T -> string -> list (Fuse.Result T).

(** X12: the number of subjects returned never exceeds the limit: 50 when
    no limit is given, the limit itself when it is not negative, for a
    blank query and for a real one alike. *)
Theorem searchSubjects_limit (now now' : Z) (cache : SearchCache EnrichedSubject.t)
    (subjects : list Subject.t) (options : SubjectSearchOptions) :
  let returned :=
    Z.of_nat (List.length (fst (searchSubjects fuseSearch now now' cache subjects options))) in
  (subjectLimit options = None -> returned <= 50) /\
  (forall n, subjectLimit options = Some n -> 0 <= n -> returned <= n).
Proof.
  assert (H : forall n,
    match subjectLimit options with Some l => l | None => 50 end = n -> 0 <= n ->
    Z.of_nat (List.length (fst (searchSubjects fuseSearch now now' cache subjects options)))
    <= n).
  { intros n Hn Hpos. unfold searchSubjects. rewrite Hn.
    destruct (String.eqb (query options) "" || _); simpl; [now apply slice0_length|].
    destruct (normaliseSubjectQuery (query options) (aliases options)) as [q targets].
    match goal with
    | |- context [let '(a, b) := ?X in _] => destruct X as [fuzzy cache']
    end.
    simpl. now apply slice0_length. }
  cbv zeta. split.
  - intros Hnone. apply H; [now rewrite Hnone | lia].
  - intros n Hsome Hpos. apply H; [now rewrite Hsome | exact Hpos].
Qed.

(** X13: a subject of positive priority is never missing from the result
    when the limit is at least the number of subjects. *)
Theorem searchSubjects_keeps_exact_matches (now now' : Z)
    (cache : SearchCache EnrichedSubject.t)
    (subjects : list Subject.t) (options : SubjectSearchOptions) (s : Subject.t) :
  let limit := match subjectLimit options with Some l => l | None => 50 end in
  let q := JS.toLowerCase (JS.trim (query options)) in
  let aliasTargets := snd (normaliseSubjectQuery (query options) (aliases options)) in
  JS.trim (query options) <> "" ->
  Z.of_nat (List.length subjects) <= limit ->
  In s subjects ->
  0 < prioritySum q aliasTargets s ->
  In (enrichSubject s) (fst (searchSubjects fuseSearch now now' cache subjects options)).
Proof.
  intros limit q aliasTargets Ht Hlimit Hin Hp.
  rewrite (searchSubjects_nonblank fuseSearch now now' cache subjects options Ht).
  fold limit. fold q. fold aliasTargets.
  set (exact := JS.sort (JS.descending (priorityOf q aliasTargets))
                  (filter (fun s0 => 0 <? priorityOf q aliasTargets s0)
                     (map enrichSubject subjects))).
  assert (Hex : In (enrichSubject s) exact).
  { apply (Permutation_in _ (Permutation_sym (sort_perm _ _))).
    apply filter_In. split; [now apply in_map | now apply Z.ltb_lt]. }
  assert (Hlen : (List.length exact <= List.length subjects)%nat).
  { unfold exact. rewrite (Permutation_length (sort_perm _ _)).
    rewrite <- (length_map enrichSubject subjects). apply filter_length_le. }
  unfold JS.slice0.
  destruct (Z.ltb_spec limit 0); [lia|].
  apply in_split in Hex. destruct Hex as [l1 [l2 Hex]].
  rewrite Hex, <- !app_assoc. simpl.
  assert (Hl1 : (List.length l1 < List.length exact)%nat)
    by (rewrite Hex, length_app; simpl; lia).
  rewrite firstn_app. apply in_or_app. right.
  rewrite length_app in *. simpl in *.
  set (fz := fuzzyTierOf _ _ _ _ _ _) in *.
  assert (Hk : exists m, (Z.to_nat (Z.min limit
                 (Z.of_nat (List.length l1 + S (List.length (l2 ++ fz)))))
               - List.length l1 = S m)%nat).
  { exists (Z.to_nat (Z.min limit
              (Z.of_nat (List.length l1 + S (List.length (l2 ++ fz)))))
            - List.length l1 - 1)%nat.
    rewrite Hex, length_app in Hlen. simpl in Hlen. lia. }
  destruct Hk as [m ->]. simpl. now left.
Qed.
End SubjectMore.

(* ====================================================================== *)
(** * Further properties of the student search                             *)
(* ====================================================================== *)

(** X14: whatever the collation and whatever the years, [sortStudents]
    returns the same students, each as often as before, in descending
    order of year with a missing year counted as [0]. *)
Theorem sortStudents_year_descending (localeCompare : string -> string -> Z)
    (students : list Student.t) :
  Permutation (sortStudents localeCompare students) students /\
  StronglySorted
    (fun a b => yearOr0 (Student.year b) <= yearOr0 (Student.year a))
    (sortStudents localeCompare students).
Proof.
  split; [apply sort_perm|]. unfold sortStudents.
  apply sort_sorted_preorder with (good := fun _ => True).
  - intros a b c. lia.
  - intros a b _ _. unfold compareStudents.
    destruct (negb (option_eqb Z.eqb (Student.year b) (Student.year a))) eqn:E.
    + intros H. apply Z.ltb_ge in H. lia.
    + intros _. apply negb_false_iff in E.
      apply (option_eqb_eq Z.eqb) in E; [rewrite E; lia|].
      intros x y. apply Z.eqb_eq.
  - intros a b _ _. unfold compareStudents.
    destruct (negb (option_eqb Z.eqb (Student.year b) (Student.year a))) eqn:E.
    + intros H. apply Z.ltb_lt in H. lia.
    + intros _. apply negb_false_iff in E.
      apply (option_eqb_eq Z.eqb) in E; [rewrite E; lia|].
      intros x y. apply Z.eqb_eq.
  - apply Forall_forall. auto.
Qed.

Lemma forallb_pointwise (A : Type) (f g : A -> bool) (l : list A) :
  (forall x, f x = g x) -> forallb f l = forallb g l.
Proof. intros H. induction l as [|x l IH]; simpl; [reflexivity | now rewrite H, IH]. Qed.

(** X15: matching ignores letter case on both sides: lower-casing the
    query and the student's name, school and subject names changes no
    answer. *)
Theorem studentMatchesQuery_ignores_case (student : Student.t) (query : string) :
  studentMatchesQuery (lowerCaseStudent student) (JS.toLowerCase query)
  = studentMatchesQuery student query.
Proof.
  unfold studentMatchesQuery, lowerCaseStudent. simpl.
  rewrite !toLowerCase_idem.
  assert (Hsub : forall q,
    existsb (subjectIncludes q)
      (map (fun x => {| ss_subject := JS.toLowerCase (ss_subject x);
                        ss_score := ss_score x |}) (Student.subjects student))
    = existsb (subjectIncludes q) (Student.subjects student)).
  { intros q. induction (Student.subjects student) as [|x l IH]; simpl; [reflexivity|].
    unfold subjectIncludes at 1 3. simpl. now rewrite toLowerCase_idem, IH. }
  rewrite Hsub.
  repeat match goal with
         | |- (if ?b then true else _) = _ => destruct b; [reflexivity|]
         end.
  destruct (1 <? _); [|reflexivity].
  match goal with
  | |- (if forallb ?f ?l then _ else _) = (if forallb ?g _ then _ else _) =>
      rewrite (forallb_pointwise f g l); [reflexivity|]
  end.
  intros qw. now rewrite Hsub.
Qed.

(** ** Words in any order *)

Lemma string_app_nil_r (s : string) : s ++ "" = s.
Proof. induction s as [|c s IH]; simpl; [reflexivity | now rewrite IH]. Qed.

Lemma revString_revString (a b w : string) :
  JS.revString a (JS.revString b w) = JS.revString (w ++ a) b.
Proof.
  revert a b. induction w as [|c w IH]; intros a b; simpl; [reflexivity|].
  now rewrite IH.
Qed.

Lemma revString_twice (w : string) : JS.revString "" (JS.revString "" w) = w.
Proof. rewrite revString_revString. simpl. apply string_app_nil_r. Qed.

Section SplitJoin.
Variable sep : ascii -> bool.
Hypothesis sep_space : sep " "%char = true.

(** Reading a stretch without separators only extends the current piece. *)
Lemma splitRuns_avoids (w cur s : string) :
  avoids sep w = true ->
  JS.splitRuns sep cur false (w ++ s) = JS.splitRuns sep (JS.revString cur w) false s.
Proof.
  revert cur. induction w as [|c w IH]; intros cur H; simpl in *; [reflexivity|].
  apply andb_true_iff in H. destruct H as [Hc Hw].
  apply negb_true_iff in Hc. rewrite Hc. now apply IH.
Qed.

Lemma splitRuns_word (w s : string) (inSep : bool) :
  w <> "" -> avoids sep w = true ->
  JS.splitRuns sep "" inSep (w ++ s) = JS.splitRuns sep (JS.revString "" w) false s.
Proof.
  destruct w as [|c w]; [congruence|]. intros _ H. simpl in *.
  apply andb_true_iff in H. destruct H as [Hc Hw].
  apply negb_true_iff in Hc. rewrite Hc. now apply splitRuns_avoids.
Qed.

(** Splitting what was joined with single spaces gives the words back. *)
Lemma splitRuns_joinWords (words : list string) (inSep : bool) :
  words <> [] ->
  Forall (fun w => w <> "" /\ avoids sep w = true) words ->
  JS.splitRuns sep "" inSep (joinWords words) = words.
Proof.
  intros Hne H. revert inSep.
  induction H as [|w rest [Hw Ha] Hrest IH]; intros inSep; [congruence|].
  unfold joinWords in *. destruct rest as [|w2 rest].
  - simpl. rewrite <- (string_app_nil_r w) at 1.
    rewrite (splitRuns_word "" inSep Hw Ha). simpl. now rewrite revString_twice.
  - change (String.concat " " (w :: w2 :: rest))
      with (w ++ String " " (String.concat " " (w2 :: rest))).
    rewrite (splitRuns_word _ inSep Hw Ha). simpl. rewrite sep_space.
    rewrite revString_twice. f_equal. apply IH. discriminate.
Qed.
End SplitJoin.

Lemma noSeparator_avoids_white (w : string) :
  noSeparator w = true -> avoids JS.isWhiteSpace w = true.
Proof.
  induction w as [|c w IH]; simpl; [reflexivity|].
  intros H. apply andb_true_iff in H. destruct H as [Hc Hw].
  apply negb_true_iff, orb_false_iff in Hc. destruct Hc as [Hc _].
  now rewrite Hc, IH.
Qed.

Lemma noSeparator_avoids_white_comma (w : string) :
  noSeparator w = true ->
  avoids (fun c => JS.isWhiteSpace c || Ascii.eqb c ","%char) w = true.
Proof.
  induction w as [|c w IH]; simpl; [reflexivity|].
  intros H. apply andb_true_iff in H. destruct H as [Hc Hw]. now rewrite Hc, IH.
Qed.

Lemma separator_lowerChar (c : ascii) :
  (JS.isWhiteSpace (JS.lowerChar c) || Ascii.eqb (JS.lowerChar c) ","%char)
  = (JS.isWhiteSpace c || Ascii.eqb c ","%char).
Proof. destruct c as [[] [] [] [] [] [] [] []]; reflexivity. Qed.

Lemma plainWord_toLowerCase (w : string) : plainWord w -> plainWord (JS.toLowerCase w).
Proof.
  intros [Hne Hs]. split; [now rewrite JSFacts.toLowerCase_empty_iff|].
  clear Hne. induction w as [|c w IH]; simpl in *; [reflexivity|].
  apply andb_true_iff in Hs. destruct Hs as [Hc Hw].
  now rewrite separator_lowerChar, Hc, IH.
Qed.

Lemma toLowerCase_app (a b : string) :
  JS.toLowerCase (a ++ b) = JS.toLowerCase a ++ JS.toLowerCase b.
Proof. induction a as [|c a IH]; simpl; [reflexivity | now rewrite IH]. Qed.

Lemma toLowerCase_joinWords (words : list string) :
  JS.toLowerCase (joinWords words) = joinWords (map JS.toLowerCase words).
Proof.
  unfold joinWords. induction words as [|w rest IH]; [reflexivity|].
  destruct rest as [|w2 rest]; [reflexivity|].
  change (String.concat " " (w :: w2 :: rest))
    with (w ++ String " " (String.concat " " (w2 :: rest))).
  rewrite toLowerCase_app. cbn [JS.toLowerCase].
  change (JS.lowerChar " ") with " "%char. rewrite IH. reflexivity.
Qed.

Lemma startsWith_refl (s : string) : JS.startsWith s s = true.
Proof. induction s as [|c s IH]; simpl; [reflexivity | now rewrite Ascii.eqb_refl]. Qed.

Lemma includes_refl (s : string) : JS.includes s s = true.
Proof. destruct s; simpl; [reflexivity|]. now rewrite Ascii.eqb_refl, startsWith_refl. Qed.

Lemma filter_nonempty_plain (words : list string) :
  Forall plainWord words -> filter (fun w => 0 <? JS.length w) words = words.
Proof.
  induction 1 as [|w rest [Hne _] _ IH]; simpl; [reflexivity|].
  destruct w; [congruence|]. simpl. now rewrite IH.
Qed.

(** The words of a lower-cased join, as [studentMatchesQuery] splits them. *)
Lemma words_of_join (sep : ascii -> bool) (words : list string) :
  sep " "%char = true ->
  (forall w, noSeparator w = true -> avoids sep w = true) ->
  words <> [] -> Forall plainWord words ->
  filter (fun w => 0 <? JS.length w)
         (JS.splitRuns sep "" false (JS.toLowerCase (joinWords words)))
  = map JS.toLowerCase words.
Proof.
  intros Hsp Hav Hne Hplain.
  assert (Hl : Forall plainWord (map JS.toLowerCase words)).
  { apply Forall_forall. intros w Hw. apply in_map_iff in Hw.
    destruct Hw as [w0 [<- Hw0]]. apply plainWord_toLowerCase.
    now apply (proj1 (Forall_forall _ _) Hplain). }
  rewrite toLowerCase_joinWords, (@splitRuns_joinWords sep Hsp).
  - now apply filter_nonempty_plain.
  - destruct words; [congruence | discriminate].
  - eapply Forall_impl; [|exact Hl]. intros w [H1 H2]. split; [exact H1 | now apply Hav].
Qed.

(** X16 (what the multi-word branch is for): when the name of a student
    is a sequence of words separated by single spaces, a query made of two
    or more of these words, in any order and in any letter case, matches
    the student. *)
Theorem studentMatchesQuery_words_in_any_order (student : Student.t)
    (nameWords queryWords : list string) :
  Student.name student = joinWords nameWords ->
  Forall plainWord nameWords ->
  Forall plainWord queryWords ->
  (forall w, In w queryWords -> In (JS.toLowerCase w) (map JS.toLowerCase nameWords)) ->
  (2 <= List.length queryWords)%nat ->
  studentMatchesQuery student (joinWords queryWords) = true.
Proof.
  intros Hname Hn Hq Hsub Hlen. unfold studentMatchesQuery.
  destruct (JS.includes _ _ || JS.includes _ _); [reflexivity|].
  destruct (existsb _ _); [reflexivity|].
  assert (Hqne : queryWords <> []) by (destruct queryWords; [simpl in Hlen; lia | discriminate]).
  assert (Hnne : nameWords <> []).
  { destruct queryWords as [|w ?]; [congruence|].
    specialize (Hsub w (or_introl eq_refl)). destruct nameWords; [contradiction | discriminate]. }
  unfold JS.splitWhite, JS.splitWhiteComma.
  rewrite (words_of_join JS.isWhiteSpace eq_refl noSeparator_avoids_white Hqne Hq).
  rewrite Hname.
  rewrite (words_of_join (fun c => JS.isWhiteSpace c || Ascii.eqb c ","%char)
             eq_refl noSeparator_avoids_white_comma Hnne Hn).
  rewrite length_map.
  replace (1 <? Z.of_nat (List.length queryWords)) with true
    by (symmetry; apply Z.ltb_lt; lia).
  replace (forallb _ (map JS.toLowerCase queryWords)) with true; [reflexivity|].
  symmetry. apply forallb_forall. intros qw Hqw.
  apply in_map_iff in Hqw. destruct Hqw as [w [<- Hw]].
  apply orb_true_iff. left. apply orb_true_iff. left.
  apply existsb_exists. exists (JS.toLowerCase w).
  split; [now apply Hsub | apply includes_refl].
Qed.

Lemma studentMatchesQuery_words_witness :
  let john := {| Student.name := "John Smith"; Student.school := "X High";
                 Student.subjects := [{| ss_subject := "Methods"; ss_score := 40 |}];
                 Student.year := Some 2024 |} in
  (2 <= List.length ["SMITH"; "john"])%nat /\
  studentMatchesQuery john "SMITH john" = true.
Proof.
  intros john. split; [apply le_n|].
  apply (@studentMatchesQuery_words_in_any_order john ["John"; "Smith"] ["SMITH"; "john"]).
  - reflexivity.
  - repeat constructor; discriminate.
  - repeat constructor; discriminate.
  - intros w [<- | [<- | []]]; simpl; auto.
  - apply le_n.
Defined.

(* ====================================================================== *)
(** * The debounced function                                               *)
(* ====================================================================== *)

Section DebounceFacts.
Variable Args : Type.
Variable wait : Z.

Local Abbreviation State := (Debounce.State Args).
Local Abbreviation Event := (Debounce.Event Args).
Local Abbreviation latest := (Debounce.latest wait).
Local Abbreviation carriedOut := (Debounce.carriedOut wait).

Lemma latest_snoc (events : list Event) (e : Event) (waiting : option (Z * Args)) :
  latest (events ++ [e]) waiting
  = match e with
    | Debounce.Call now args => Some (now + Z.max 0 wait, args)
    | Debounce.Fire _ _ _ => None
    end.
Proof.
  revert waiting. induction events as [|x events IH]; intros waiting; simpl.
  - destruct e; reflexivity.
  - destruct x; apply IH.
Qed.

Lemma carriedOut_snoc (events : list Event) (e : Event) (waiting : option (Z * Args)) :
  carriedOut (events ++ [e]) waiting
  = (carriedOut events waiting ++
     match e, latest events waiting with
     | Debounce.Fire now _ _, Some (_, args) => [(now, args)]
     | _, _ => []
     end)%list.
Proof.
  revert waiting. induction events as [|x events IH]; intros waiting; simpl.
  - destruct e as [now args|now t r]; [reflexivity|].
    destruct waiting as [[d a]|]; reflexivity.
  - destruct x as [now args|now t r]; [apply IH|].
    destruct waiting as [[d a]|]; simpl; now rewrite IH.
Qed.

Lemma clearTimeout_own (id d : Z) (a : Args) :
  Debounce.clearTimeout id
    [{| Debounce.handle := id; Debounce.due := d; Debounce.captured := a |}] = [].
Proof. unfold Debounce.clearTimeout. simpl. now rewrite Z.eqb_refl. Qed.

(** A firing during which [func] makes no call of its own: the timer is
    gone, the call is recorded, and [timeoutId] is reset when [func]
    returns. *)
Lemma fire_noReentry (now : Z) (t : Debounce.Timer Args) (r : Debounce.FuncRun Args)
    (st : State) :
  Debounce.reentrant r = [] ->
  Debounce.timers (Debounce.fire wait now t r st)
  = Debounce.clearTimeout (Debounce.handle t) (Debounce.timers st) /\
  Debounce.invoked (Debounce.fire wait now t r st)
  = (Debounce.invoked st ++ [(now, Debounce.captured t)])%list /\
  (Debounce.throws r = false -> Debounce.timeoutId (Debounce.fire wait now t r st) = None).
Proof.
  intros Hr. unfold Debounce.fire. rewrite Hr. simpl.
  destruct (Debounce.throws r); simpl; repeat split; intros; try reflexivity; discriminate.
Qed.

Lemma run_invariant (events : list Event) (st : State) :
  Debounce.run wait events st ->
  Forall (@Debounce.noReentry Args) events ->
  debounceInvariant wait events st.
Proof.
  induction 1 as [|events st e st' Hrun IH Hstep]; intros Hno.
  - repeat split; constructor.
  - apply Forall_app in Hno. destruct Hno as [Hno He].
    apply Forall_inv in He.
    destruct (IH Hno) as [Hw [Hinv Hall]].
    assert (Hmono : Forall (fun call => exists t0,
                       In (Debounce.Call t0 (snd call)) (events ++ [e]) /\
                       t0 + Z.max 0 wait <= fst call) (Debounce.invoked st)).
    { eapply Forall_impl; [|exact Hall]. intros c [t0 [Hin Hle]].
      exists t0. split; [apply in_or_app; now left | exact Hle]. }
    unfold debounceInvariant. rewrite latest_snoc, carriedOut_snoc.
    destruct Hstep as [now args st | now t r st Hin Hdue].
    + split; [|split].
      * exists (Debounce.nextHandle st). split; [reflexivity|]. split.
        -- unfold Debounce.debounced. simpl.
           destruct (latest events None) as [[d a]|].
           ++ destruct Hw as [id [-> [-> _]]]. now rewrite clearTimeout_own.
           ++ destruct Hw as [-> _].
              now destruct (Debounce.timeoutId st).
        -- exists now. split; [apply in_or_app; right; now left | reflexivity].
      * simpl. now rewrite Hinv, app_nil_r.
      * exact Hmono.
    + simpl in He.
      destruct (@fire_noReentry now t r st He) as [Hts' [Hinv' Hid']].
      rewrite Hinv'.
      destruct (latest events None) as [[d a]|].
      * destruct Hw as [id [Hid [Hts [t0 [Hcall Hd]]]]].
        rewrite Hts in Hin. destruct Hin as [<- | []]. simpl in *.
        split; [|split].
        -- split; [rewrite Hts', Hts; apply clearTimeout_own|].
           intros Hret. apply Forall_app in Hret. destruct Hret as [_ Hret].
           apply Forall_inv in Hret. now apply Hid'.
        -- now rewrite Hinv.
        -- apply Forall_app. split; [exact Hmono|].
           constructor; [|constructor]. simpl. exists t0.
           split; [apply in_or_app; now left | lia].
      * destruct Hw as [Hts _]. rewrite Hts in Hin. contradiction.
Qed.


End DebounceFacts.

(* ====================================================================== *)
(** * A term without a qualifying word                                     *)
(* ====================================================================== *)

Section OneLetterTerm.
Variable fuseSearch : forall T : Type, Fuse.t T -> string -> list (Fuse.Result T).

End OneLetterTerm.

(* ====================================================================== *)
(** * The further properties at concrete inputs                            *)
(* ====================================================================== *)

Lemma fuzzySearch_same_length_witness :
  let first := fuzzySearch matchEverything 0 0 [] [1; 2; 3] "ab" courseFuzzyOptions in
  fst first = [1; 2; 3] /\
  fuzzySearch matchEverything 10 10 (snd first) [7; 8; 9] "ab" courseFuzzyOptions = first.
Proof.
  intros first. split; [vm_compute; reflexivity|].
  apply (@fuzzySearch_same_length_same_results matchEverything Z 0 0 10 10 []
           [1; 2; 3] [7; 8; 9] "ab" courseFuzzyOptions).
  - reflexivity.
  - vm_compute; discriminate.
  - vm_compute; discriminate.
  - vm_compute; reflexivity.
Defined.

Lemma searchCourses_without_term_witness :
  let options := {| searchTerm := None; categoryFilter := None;
                    atar := Some 90%float; limit := None |} in
  exists ranked,
    searchCourses matchEverything 0 0 [] exampleCourses options
    = (limitStage options ranked, []) /\
    Permutation ranked (categoryStage options (enrichCourses exampleCourses 90)) /\
    StronglySorted unknownAfter ranked.
Proof.
  intros options.
  apply (@searchCourses_without_term matchEverything 0 0 [] exampleCourses options).
  left. reflexivity.
Defined.

Lemma searchCourses_blank_term_witness :
  map (fun c => Course.code (EnrichedCourse.course c))
      (fst (searchCourses matchEverything 0 0 [] exampleCourses (exampleCourseOptions "  ")))
  = ["1001"; "1002"; "1003"].
Proof.
  rewrite (@searchCourses_blank_term matchEverything 0 0 [] exampleCourses
             (exampleCourseOptions "  ") "  " eq_refl);
    [vm_compute; reflexivity | discriminate | reflexivity].
Defined.

Lemma searchCourses_category_witness :
  let options := {| searchTerm := Some "monash"; categoryFilter := Some (only target);
                    atar := Some 90%float; limit := None |} in
  categoryFilter options = Some (only target) /\
  Forall (fun e => EnrichedCourse.category e = target)
         (fst (searchCourses matchEverything 0 0 [] exampleCourses options)).
Proof.
  intros options. split; [reflexivity|].
  apply (@searchCourses_category matchEverything 0 0 [] exampleCourses options target).
  reflexivity.
Defined.

Lemma searchCourses_limit_witness :
  let options := {| searchTerm := None; categoryFilter := None;
                    atar := Some 90%float; limit := Some 2 |} in
  Z.of_nat (List.length (fst (searchCourses matchEverything 0 0 [] exampleCourses options)))
  <= 2.
Proof.
  intros options.
  apply (@searchCourses_limit matchEverything 0 0 [] exampleCourses options 2 eq_refl).
  reflexivity.
Defined.

Lemma wordBasedSearch_same_words_witness :
  wordBasedSearch (enrichCourses exampleCourses 90) "Monash  medicine"
  = wordBasedSearch (enrichCourses exampleCourses 90) "medicine a MONASH".
Proof.
  apply wordBasedSearch_same_words. vm_compute. apply perm_swap.
Defined.

Lemma searchSubjects_limit_witness :
  Z.of_nat (List.length
              (fst (searchSubjects matchEverything 0 0 [] exampleSubjects
                      {| query := "math"; aliases := None; subjectLimit := Some 1 |})))
  <= 1.
Proof.
  apply (proj2 (searchSubjects_limit matchEverything 0 0 [] exampleSubjects
                  {| query := "math"; aliases := None; subjectLimit := Some 1 |})
               1 eq_refl).
  discriminate.
Defined.

Lemma searchSubjects_keeps_exact_witness :
  In (enrichSubject (Subject.make "MA11" "Mathematical Methods"))
     (fst (searchSubjects matchEverything 0 0 [] exampleSubjects exampleSubjectOptions)).
Proof.
  apply (@searchSubjects_keeps_exact_matches matchEverything 0 0 [] exampleSubjects
           exampleSubjectOptions (Subject.make "MA11" "Mathematical Methods")).
  - vm_compute; discriminate.
  - vm_compute; discriminate.
  - right. left. reflexivity.
  - vm_compute. reflexivity.
Defined.


(** Two calls in quick succession, then the timer of the second fires
    and [func] returns without calling the debounced function. *)
Lemma debounce_example_run :
  let second := {| Debounce.handle := 2; Debounce.due := 400; Debounce.captured := "ab" |} in
  let quiet := {| Debounce.reentrant := []; Debounce.throws := false |} in
  Debounce.run 300
    [Debounce.Call 0 "a"; Debounce.Call 100 "ab"; Debounce.Fire 450 second quiet]
    {| Debounce.timeoutId := None; Debounce.timers := []; Debounce.nextHandle := 3;
       Debounce.invoked := [(450, "ab")] |}.
Proof.
  intros second quiet.
  apply (Debounce.run_step
           (events := [Debounce.Call 0 "a"; Debounce.Call 100 "ab"])
           (st := Debounce.debounced 300 100 "ab"
                    (Debounce.debounced 300 0 "a" (Debounce.initial string)))
           (e := Debounce.Fire 450 second quiet)).
  - apply (Debounce.run_step (events := [Debounce.Call 0 "a"])
             (e := Debounce.Call 100 "ab")
             (st := Debounce.debounced 300 0 "a" (Debounce.initial string))).
    + apply (Debounce.run_step (events := []) (e := Debounce.Call 0 "a")
               (st := Debounce.initial string)); constructor.
    + constructor.
  - apply (@Debounce.step_fire string 300 450 second quiet
             (Debounce.debounced 300 100 "ab"
                (Debounce.debounced 300 0 "a" (Debounce.initial string)))).
    + left. reflexivity.
    + simpl. lia.
Defined.



(** Why [func] must not call the debounced function: the timer such a
    call sets is orphaned when [timeoutId] is reset after [func] returns.
    The next call cannot clear it, so two timers are set, and the call
    made from within [func] is carried out although a later call came
    before its timer fired. *)
Example debounce_reentrant_call_is_not_cancelled :
  let first := {| Debounce.handle := 1; Debounce.due := 300; Debounce.captured := "a" |} in
  let again := {| Debounce.reentrant := ["b"]; Debounce.throws := false |} in
  let st := Debounce.debounced 300 310 "c"
              (Debounce.fire 300 300 first again
                 (Debounce.debounced 300 0 "a" (Debounce.initial string))) in
  Debounce.run 300
    [Debounce.Call 0 "a"; Debounce.Fire 300 first again; Debounce.Call 310 "c"] st /\
  Debounce.timeoutId st = Some 3 /\
  Debounce.timers st
  = [ {| Debounce.handle := 2; Debounce.due := 600; Debounce.captured := "b" |};
      {| Debounce.handle := 3; Debounce.due := 610; Debounce.captured := "c" |} ].
Proof.
  intros first again st. split; [|split; reflexivity].
  apply (Debounce.run_step
           (events := [Debounce.Call 0 "a"; Debounce.Fire 300 first again])
           (e := Debounce.Call 310 "c")
           (st := Debounce.fire 300 300 first again
                    (Debounce.debounced 300 0 "a" (Debounce.initial string))));
    [|constructor].
  apply (Debounce.run_step (events := [Debounce.Call 0 "a"])
           (e := Debounce.Fire 300 first again)
           (st := Debounce.debounced 300 0 "a" (Debounce.initial string))).
  - apply (Debounce.run_step (events := []) (e := Debounce.Call 0 "a")
             (st := Debounce.initial string)); constructor.
  - apply Debounce.step_fire; [left; reflexivity | simpl; lia].
Qed.

(** When [func] throws, [timeoutId] keeps the handle of the timer that
    has fired, with no timer set. *)
Example debounce_func_throws_keeps_timeoutId :
  let first := {| Debounce.handle := 1; Debounce.due := 300; Debounce.captured := "a" |} in
  let st := Debounce.fire 300 300 first
              {| Debounce.reentrant := []; Debounce.throws := true |}
              (Debounce.debounced 300 0 "a" (Debounce.initial string)) in
  Debounce.timeoutId st = Some 1 /\ Debounce.timers st = [] /\
  Debounce.invoked st = [(300, "a")].
Proof. repeat split. Qed.

(* ====================================================================== *)
(** * More words, fewer courses; which subjects are exact                  *)
(* ====================================================================== *)

Lemma wordBasedSearch_In (courses : list EnrichedCourse.t) (term : string)
    (c : EnrichedCourse.t) :
  In c (wordBasedSearch courses term)
  <-> In c courses /\ hasEveryWord (qualifyingWords (JS.toLowerCase term)) c.
Proof.
  destruct (qualifyingWords (JS.toLowerCase term)) as [|w ws] eqn:E.
  - rewrite (wordBasedSearch_no_words courses term E). unfold hasEveryWord.
    split; [intros H; split; [exact H | intros x []] | tauto].
  - assert (Hne : qualifyingWords (JS.toLowerCase term) <> []) by (rewrite E; discriminate).
    rewrite (wordBasedSearch_sort courses term Hne), <- E.
    split.
    + intros H. apply (Permutation_in _ (sort_perm _ _)) in H.
      apply filter_In in H. now rewrite containsAllWords_spec in H.
    + intros H. apply (Permutation_in _ (Permutation_sym (sort_perm _ _))).
      apply filter_In. now rewrite containsAllWords_spec.
Qed.

(** X20 (all words must be present): a term that has every qualifying
    word of another term, and perhaps more, never finds a course the
    other does not find. *)
Theorem wordBasedSearch_more_words_fewer_courses (courses : list EnrichedCourse.t)
    (term1 term2 : string) (c : EnrichedCourse.t) :
  (forall w, In w (qualifyingWords (JS.toLowerCase term1)) ->
             In w (qualifyingWords (JS.toLowerCase term2))) ->
  In c (wordBasedSearch courses term2) ->
  In c (wordBasedSearch courses term1).
Proof.
  intros Hsub H. apply wordBasedSearch_In in H. destruct H as [Hin Hall].
  apply wordBasedSearch_In. split; [exact Hin|].
  intros w Hw. apply Hall. now apply Hsub.
Qed.

Lemma wordBasedSearch_more_words_witness :
  match wordBasedSearch (enrichCourses exampleCourses 90) "monash medicine" with
  | [] => False
  | c :: _ => In c (wordBasedSearch (enrichCourses exampleCourses 90) "monash")
  end.
Proof.
  destruct (wordBasedSearch (enrichCourses exampleCourses 90) "monash medicine")
    as [|c rest] eqn:E.
  - vm_compute in E. discriminate E.
  - apply (@wordBasedSearch_more_words_fewer_courses (enrichCourses exampleCourses 90)
             "monash" "monash medicine" c).
    + vm_compute. intros w [<- | []]. now left.
    + rewrite E. now left.
Defined.

Lemma sumZ_bonus_positive (A : Type) (applies : A -> bool) (points : Z) (l : list A) :
  0 < points ->
  0 <= sumZ (map (fun x => bonus (applies x) points) l) /\
  (0 < sumZ (map (fun x => bonus (applies x) points) l)
   <-> exists x, In x l /\ applies x = true).
Proof.
  intros Hp. induction l as [|x l [IH0 IH]]; simpl.
  - unfold sumZ. simpl. split; [lia|]. split; [lia | intros [x [[] _]]].
  - unfold sumZ in *. simpl. unfold bonus at 1 3. destruct (applies x) eqn:E.
    + split; [lia|]. split; [intros _; exists x; auto | lia].
    + split; [lia|]. rewrite Z.add_0_l, IH. split.
      * intros [y [Hy Hay]]. exists y. auto.
      * intros [y [[<- | Hy] Hay]]; [congruence | exists y; auto].
Qed.

(** X21 (who is in the exact tier): the priority of a subject is never
    negative, and it is positive exactly when the lower-cased name starts
    with the normalised query or with a lower-cased alias target, or the
    lower-cased code starts with the normalised query. *)
Theorem subjectPriority_positive (q : string) (aliasTargets : list string)
    (s : EnrichedSubject.t) :
  let name := JS.toLowerCase (Subject.name (EnrichedSubject.subject s)) in
  let code := JS.toLowerCase (Subject.code (EnrichedSubject.subject s)) in
  0 <= subjectPriority q aliasTargets s /\
  (0 < subjectPriority q aliasTargets s <->
   (exists target, In target aliasTargets /\
                   JS.startsWith name (JS.toLowerCase target) = true) \/
   JS.startsWith name q = true \/
   JS.startsWith code q = true).
Proof.
  intros name code. rewrite subjectPriority_sum. unfold priorityOf, prioritySum.
  fold name. fold code.
  destruct (sumZ_bonus_positive (fun t => String.eqb name (JS.toLowerCase t)) aliasTargets
              (points := 100)) as [E0 E]; [lia|].
  destruct (sumZ_bonus_positive (fun t => JS.startsWith name (JS.toLowerCase t)) aliasTargets
              (points := 50)) as [P0 P]; [lia|].
  assert (Heq : forall a b, String.eqb a b = true -> JS.startsWith a b = true).
  { intros a b H. apply String.eqb_eq in H. subst b. apply startsWith_refl. }
  assert (HE : 0 < sumZ (map (fun t => bonus (String.eqb name (JS.toLowerCase t)) 100)
                             aliasTargets)
               -> 0 < sumZ (map (fun t => bonus (JS.startsWith name (JS.toLowerCase t)) 50)
                                aliasTargets)).
  { intros H. apply P. apply E in H. destruct H as [t [Ht He]]. exists t. auto. }
  pose proof (Heq name q) as Hn. pose proof (Heq code q) as Hc.
  destruct (String.eqb name q), (JS.startsWith name q), (String.eqb code q),
           (JS.startsWith code q);
    try (specialize (Hn eq_refl); discriminate Hn);
    try (specialize (Hc eq_refl); discriminate Hc);
    unfold bonus in *; (split; [lia|]); rewrite <- P;
    (split; [intros H; first [now (right; left) | now (right; right) | left; lia]
            | intros [H | [H | H]]; try discriminate H; lia]).
Qed.
